(** * Receipt extraction pipeline: a shallow embedding

    The development follows three source files of the household-ledger
    backend:

    - [app/services/ocr_service.py]: [parse_ocr_response] and the retry loop
      of [process_receipt_image];
    - [app/services/file_service.py]: [validate_file], [save_uploaded_file]
      and [delete_file];
    - [app/api/receipts.py]: the upload endpoint [process_receipt_ocr] and the
      save endpoint [save_receipt_transaction].

    Python values are an inductive type, exceptions are data, and a function
    that can raise returns a [result].  Code that touches the filesystem, the
    clock, the lazily built API client or the vision endpoint threads a
    [world] through.  Library functions whose code is not part of the
    repository ([json.loads], [float] on strings, [pathlib], [datetime]
    parsing, the pydantic response model) are the fields of the class
    [PyLib]; every definition and theorem is generic in it.  Calls to
    [logger] write to the logging subsystem only and are left out. *)

From Stdlib Require Import ZArith NArith List String Ascii Bool Lia.
From Stdlib Require Import Floats.SpecFloat DecimalString.
From stdpp Require Import base decidable option list countable gmap.
Import ListNotations.

Local Open Scope Z_scope.

(** ** Python strings *)

(** A Python [str] is a sequence of Unicode code points. *)
Abbreviation pystr := (list N).

Module Str.

(** Literals are written as Rocq strings, which hold bytes; [lit] decodes
    their UTF-8 so that the Korean messages of the source are the same
    code points as in Python. *)
Fixpoint utf8_decode (bs : list N) : pystr :=
  match bs with
  | [] => []
  | b0 :: r0 =>
    if (b0 <? 128)%N then b0 :: utf8_decode r0 else
    match r0 with
    | [] => []
    | b1 :: r1 =>
      if (b0 <? 224)%N
      then (N.land b0 31 * 64 + N.land b1 63)%N :: utf8_decode r1
      else
      match r1 with
      | [] => []
      | b2 :: r2 =>
        if (b0 <? 240)%N
        then (N.land b0 15 * 4096 + N.land b1 63 * 64 + N.land b2 63)%N
               :: utf8_decode r2
        else
        match r2 with
        | [] => []
        | b3 :: r3 =>
          (N.land b0 7 * 262144 + N.land b1 63 * 4096
           + N.land b2 63 * 64 + N.land b3 63)%N :: utf8_decode r3
        end
      end
    end
  end.

Definition lit (s : string) : pystr :=
  utf8_decode (map N_of_ascii (list_ascii_of_string s)).

(** [str.isspace] on one code point (the characters [str.strip] removes). *)
Definition isspace (c : N) : bool :=
  ((9 <=? c) && (c <=? 13) || (28 <=? c) && (c <=? 32)
   || (c =? 133) || (c =? 160) || (c =? 5760)
   || (8192 <=? c) && (c <=? 8202) || (c =? 8232) || (c =? 8233)
   || (c =? 8239) || (c =? 8287) || (c =? 12288))%N.

Fixpoint lstrip (s : pystr) : pystr :=
  match s with
  | c :: s' => if isspace c then lstrip s' else s
  | [] => []
  end.

Definition rstrip (s : pystr) : pystr := rev (lstrip (rev s)).

(** [s.strip()] *)
Definition strip (s : pystr) : pystr := rstrip (lstrip s).

(** [s.startswith(p)] *)
Fixpoint startswith (s p : pystr) : bool :=
  match p, s with
  | [], _ => true
  | c :: p', d :: s' => (c =? d)%N && startswith s' p'
  | _ :: _, [] => false
  end.

(** [s.endswith(p)] *)
Definition endswith (s p : pystr) : bool := startswith (rev s) (rev p).

(** [s.replace(c, r)] for a one-character pattern [c]. *)
Definition replace_char (c : N) (r s : pystr) : pystr :=
  flat_map (fun d => if (d =? c)%N then r else [d]) s.

(** [str(n)] for an [int]. *)
Definition of_Z (z : Z) : pystr :=
  lit (NilZero.string_of_int (Z.to_int z)).

(** [truthy s]: a [str] is true in a condition when it is not empty. *)
Definition truthy (s : pystr) : bool :=
  match s with [] => false | _ :: _ => true end.

(** [', '.join(l)] and friends. *)
Fixpoint join (sep : pystr) (l : list pystr) : pystr :=
  match l with
  | [] => []
  | [x] => x
  | x :: l' => x ++ sep ++ join sep l'
  end.

End Str.

Notation "« s »" := (Str.lit s) (at level 0, s at level 0, format "« s »").

(** ** Exceptions and results *)

(** The exception classes the three files raise or catch.  Each carries
    [str(e)].  [JSONDecodeError] and pydantic's [ValidationError] are
    subclasses of [ValueError]; [APITimeoutError] is a subclass of
    [APIConnectionError], itself a subclass of [APIError]. *)
Inductive exn : Type :=
| ValueError (msg : pystr)
| JSONDecodeError (msg : pystr)
| ValidationError (msg : pystr)
| TypeError (msg : pystr)
| OverflowError (msg : pystr)
| AttributeError (msg : pystr)
| OSError (msg : pystr)
| RuntimeError (msg : pystr)
| AsyncioTimeoutError
| APITimeoutError (msg : pystr)
| APIConnectionError (msg : pystr)
| APIError (msg : pystr)
| HTTPException (status_code : Z) (detail : pystr)
| OtherException (msg : pystr).

(** [str(e)] *)
Definition exn_str (e : exn) : pystr :=
  match e with
  | ValueError m | JSONDecodeError m | ValidationError m | TypeError m
  | OverflowError m | AttributeError m | OSError m | RuntimeError m
  | APITimeoutError m | APIConnectionError m | APIError m
  | OtherException m => m
  | AsyncioTimeoutError => []
  | HTTPException s d => Str.of_Z s ++ «": "» ++ d
  end.

(** [isinstance(e, ValueError)] *)
Definition is_ValueError (e : exn) : bool :=
  match e with
  | ValueError _ | JSONDecodeError _ | ValidationError _ => true
  | _ => false
  end.

Definition is_TypeError (e : exn) : bool :=
  match e with TypeError _ => true | _ => false end.

Definition is_HTTPException (e : exn) : bool :=
  match e with HTTPException _ _ => true | _ => false end.

(** [isinstance(e, (APITimeoutError, APIConnectionError))] *)
Definition is_APIConnectionError (e : exn) : bool :=
  match e with
  | APITimeoutError _ | APIConnectionError _ => true
  | _ => false
  end.

(** [isinstance(e, APIError)] *)
Definition is_APIError (e : exn) : bool :=
  match e with
  | APITimeoutError _ | APIConnectionError _ | APIError _ => true
  | _ => false
  end.

Inductive result (A : Type) : Type :=
| Ok (a : A)
| Raise (e : exn).
Arguments Ok {A} a.
Arguments Raise {A} e.

Definition bind {A B} (r : result A) (k : A -> result B) : result B :=
  match r with
  | Ok a => k a
  | Raise e => Raise e
  end.

Notation "'do' x <- r ; k" := (bind r (fun x => k))
  (at level 10, x name, r at level 100, k at level 200).

Definition is_Ok {A} (r : result A) : bool :=
  match r with Ok _ => true | Raise _ => false end.

(** ** Python values *)

(** IEEE binary64, as the specification floats of the standard library. *)
Abbreviation float := spec_float.

Definition prec : Z := 53.
Definition emax : Z := 1024.

Definition float_zero : float := S754_zero false.
Definition float_one : float := Eval vm_compute in binary_normalize prec emax 1 0 false.

(** [x < y] and [x <= y] on floats; false when either is a NaN. *)
Definition flt (x y : float) : bool := SFltb x y.
Definition fle (x y : float) : bool := SFleb x y.

(** What [json.loads] can return. A [dict] keeps its entries in order. *)
#[local] Set Warnings "-register-all".
Inductive pyval : Type :=
| PyNone
| PyBool (b : bool)
| PyInt (z : Z)
| PyFloat (f : float)
| PyStr (s : pystr)
| PyList (l : list pyval)
| PyDict (d : list (pystr * pyval)).

(** [type(v).__name__] *)
Definition type_name (v : pyval) : pystr :=
  match v with
  | PyNone => «"NoneType"»
  | PyBool _ => «"bool"»
  | PyInt _ => «"int"»
  | PyFloat _ => «"float"»
  | PyStr _ => «"str"»
  | PyList _ => «"list"»
  | PyDict _ => «"dict"»
  end.

Fixpoint dict_lookup (k : pystr) (d : list (pystr * pyval)) : option pyval :=
  match d with
  | [] => None
  | (k', v) :: d' => if decide (k' = k) then Some v else dict_lookup k d'
  end.

(** [k in d] *)
Definition dict_has (k : pystr) (d : list (pystr * pyval)) : bool :=
  match dict_lookup k d with Some _ => true | None => false end.

(** [data.get(k, default)]: only a [dict] has the method. *)
Definition py_get (data : pyval) (k : pystr) (default : pyval) : result pyval :=
  match data with
  | PyDict d => Ok (match dict_lookup k d with Some v => v | None => default end)
  | _ => Raise (AttributeError
                  («"'"» ++ type_name data ++ «"' object has no attribute 'get'"»))
  end.

(** The dictionary [parse_ocr_response] builds (lines 149-157) and then
    updates in place: always these seven keys. *)
Record ocr_result : Type := mk_ocr_result {
  r_date : pyval;
  r_store : pyval;
  r_items : pyval;
  r_total : pyval;
  r_category : pyval;
  r_confidence : pyval;
  r_rawText : pyval
}.

(** ** Library functions *)

(** Calendar time as [datetime] holds it. *)
Record datetime : Type := mk_datetime {
  dt_year : Z; dt_month : Z; dt_day : Z;
  dt_hour : Z; dt_minute : Z; dt_second : Z
}.

Class PyLib : Type := {
  (** [json.loads(text)]: the value, or the exception raised. *)
  json_loads : pystr -> result pyval;
  (** [float(s)] for a [str]; [None] is [ValueError]. *)
  float_of_str : pystr -> option float;
  (** [str(v)] for a value that is not a [str]. *)
  repr : pyval -> pystr;
  (** [pathlib.Path(p).suffix] *)
  path_suffix : pystr -> pystr;
  (** [s.lower()] *)
  str_lower : pystr -> pystr;
  (** [datetime.fromisoformat(s)]; [None] is [ValueError]. *)
  fromisoformat : pystr -> option datetime;
  (** [datetime.strptime(s, "%Y-%m-%d")]; [None] is [ValueError]. *)
  strptime_ymd : pystr -> option datetime;
  (** [f"{n / 1024 / 1024:.1f}"] *)
  format_megabytes : Z -> pystr;
  (** Building the [ReceiptOCRResponse] of [schemas/receipt.py] from the
      seven fields and [receiptImagePath]: [None] when pydantic accepts the
      data, else the exception it raises. *)
  response_model : ocr_result -> pystr -> option exn
}.

(** ** [ocr_service.py]: the response sanitizer *)

Section Sanitizer.
Context `{PyLib}.

(** [float(n)] for an [int]: round to nearest even; an [int] beyond the
    range of binary64 raises [OverflowError]. *)
Definition float_of_int (z : Z) : result float :=
  match binary_normalize prec emax z 0 false with
  | S754_infinity _ => Raise (OverflowError «"int too large to convert to float"»)
  | f => Ok f
  end.

(** [float(v)] *)
Definition py_float (v : pyval) : result float :=
  match v with
  | PyBool b => Ok (if b then float_one else float_zero)
  | PyInt z => float_of_int z
  | PyFloat f => Ok f
  | PyStr s =>
    match float_of_str s with
    | Some f => Ok f
    | None => Raise (ValueError («"could not convert string to float: "» ++ repr v))
    end
  | PyNone | PyList _ | PyDict _ =>
    Raise (TypeError («"float() argument must be a string or a real number, not '"»
                      ++ type_name v ++ «"'"»))
  end.

(** [str(v)] *)
Definition py_str (v : pyval) : pystr :=
  match v with
  | PyStr s => s
  | _ => repr v
  end.

(** [min(1.0, x)] and [max(0.0, y)]: the built-ins keep their first
    argument unless a later one compares strictly smaller (larger). *)
Definition py_min (a x : float) : float := if flt x a then x else a.
Definition py_max (a y : float) : float := if flt a y then y else a.

(** Lines 132-143: trim, drop an opening fence, drop a closing fence, trim. *)
Definition strip_fences (response_text : pystr) : pystr :=
  let text := Str.strip response_text in
  let text :=
    if Str.startswith text «"```json"» then drop 7 text
    else if Str.startswith text «"```"» then drop 3 text
    else text in
  let text :=
    if Str.endswith text «"```"» then take (length text - 3) text
    else text in
  Str.strip text.

(** Lines 160-164. *)
Definition coerce_total (total : pyval) : result pyval :=
  match total with
  | PyNone => Ok PyNone
  | _ =>
    match py_float total with
    | Ok f => Ok (PyFloat f)
    | Raise e => if is_ValueError e || is_TypeError e then Ok PyNone else Raise e
    end
  end.

(** Lines 166-172. *)
Definition coerce_confidence (confidence : pyval) : result pyval :=
  match confidence with
  | PyNone => Ok PyNone
  | _ =>
    match py_float confidence with
    | Ok f => Ok (PyFloat (py_max float_zero (py_min float_one f)))
    | Raise e =>
      if is_ValueError e || is_TypeError e then Ok (PyFloat float_zero) else Raise e
    end
  end.

(** The body of the loop at lines 180-188: [Ok (Some it)] appends,
    [Ok None] goes on to the next entry, [Raise] leaves the loop. *)
Definition validate_item (item : pyval) : result (option pyval) :=
  match item with
  | PyDict d =>
    match dict_lookup «"name"» d, dict_lookup «"price"» d with
    | Some name, Some price =>
      match py_float price with
      | Ok f => Ok (Some (PyDict [(«"name"», PyStr (py_str name));
                                  («"price"», PyFloat f)]))
      | Raise e => if is_ValueError e || is_TypeError e then Ok None else Raise e
      end
    | _, _ => Ok None
    end
  | _ => Ok None
  end.

Fixpoint validate_items (items : list pyval) : result (list pyval) :=
  match items with
  | [] => Ok []
  | item :: rest =>
    do v <- validate_item item;
    do vs <- validate_items rest;
    Ok (match v with Some it => it :: vs | None => vs end)
  end.

(** Lines 132-191, the body of the outer [try]. *)
Definition parse_body (response_text : pystr) : result ocr_result :=
  let text := strip_fences response_text in
  do data <- json_loads text;
  do date <- py_get data «"date"» PyNone;
  do store <- py_get data «"store"» PyNone;
  do items <- py_get data «"items"» (PyList []);
  do total <- py_get data «"total"» PyNone;
  do category <- py_get data «"category"» PyNone;
  do confidence <- py_get data «"confidence"» (PyFloat float_zero);
  do rawText <- py_get data «"rawText"» (PyStr []);
  do total <- coerce_total total;
  do confidence <- coerce_confidence confidence;
  let items := match items with PyList l => l | _ => [] end in
  do validated_items <- validate_items items;
  Ok {| r_date := date; r_store := store; r_items := PyList validated_items;
        r_total := total; r_category := category;
        r_confidence := confidence; r_rawText := rawText |}.

(** [parse_ocr_response]: every exception of the body leaves as a
    [ValueError] (lines 193-199). *)
Definition parse_ocr_response (response_text : pystr) : result ocr_result :=
  match parse_body response_text with
  | Ok r => Ok r
  | Raise (JSONDecodeError m) =>
    Raise (ValueError («"OCR 응답을 파싱할 수 없습니다: "» ++ m))
  | Raise e =>
    Raise (ValueError («"응답 처리 중 오류가 발생했습니다: "» ++ exn_str e))
  end.

End Sanitizer.

(** ** The world the services run in *)

(** [config.py]: the settings the three files read. *)
Record Settings : Type := mk_settings {
  openai_api_key : option pystr;
  upload_dir : pystr;
  max_file_size : Z
}.

Definition default_settings : Settings :=
  {| openai_api_key := None;
     upload_dir := «"./uploads"»;
     max_file_size := 10485760 |}.

Inductive node : Type :=
| File (content : list Byte.byte)
| Dir.

(** What the retry loop does to the outside: a request to the vision
    endpoint during attempt [n], or a sleep of so many seconds. *)
Inductive event : Type :=
| EvCall (attempt : Z)
| EvSleep (seconds : Z).

(** The filesystem maps a path, as it is spelled, to what is there;
    [unwritable] and [undeletable] are the paths at which the operating
    system refuses to create or overwrite, respectively to unlink.
    [client] is the module-level [client] of [ocr_service.py] ([true] once
    it is built), [trace] the events so far, oldest first. *)
Record world : Type := mk_world {
  fs : gmap pystr node;
  unwritable : gset pystr;
  undeletable : gset pystr;
  utcnow : datetime;
  client : bool;
  trace : list event
}.

Definition set_fs (w : world) (m : gmap pystr node) : world :=
  {| fs := m; unwritable := unwritable w; undeletable := undeletable w;
     utcnow := utcnow w; client := client w; trace := trace w |}.

Definition set_client (w : world) (b : bool) : world :=
  {| fs := fs w; unwritable := unwritable w; undeletable := undeletable w;
     utcnow := utcnow w; client := b; trace := trace w |}.

Definition emit (w : world) (ev : event) : world :=
  {| fs := fs w; unwritable := unwritable w; undeletable := undeletable w;
     utcnow := utcnow w; client := client w; trace := trace w ++ [ev] |}.

Module Os.

(** [os.path.join(a, b)] on POSIX. *)
Definition path_join (a b : pystr) : pystr :=
  if Str.startswith b «"/"» then b
  else if negb (Str.truthy a) || Str.endswith a «"/"» then a ++ b
  else a ++ «"/"» ++ b.

(** [os.path.isabs(p)] *)
Definition isabs (p : pystr) : bool := Str.startswith p «"/"».

(** [os.path.exists(p)] *)
Definition exists_ (w : world) (p : pystr) : bool :=
  match fs w !! p with Some _ => true | None => false end.

(** [os.remove(p)]: unlinks a regular file. *)
Definition remove (w : world) (p : pystr) : world * result unit :=
  match fs w !! p with
  | Some (File _) =>
    if decide (p ∈ undeletable w)
    then (w, Raise (OSError «"[Errno 13] Permission denied"»))
    else (set_fs w (delete p (fs w)), Ok tt)
  | Some Dir => (w, Raise (OSError «"[Errno 21] Is a directory"»))
  | None => (w, Raise (OSError «"[Errno 2] No such file or directory"»))
  end.

(** [os.makedirs(d, exist_ok=True)] *)
Definition makedirs (w : world) (d : pystr) : world * result unit :=
  match fs w !! d with
  | Some (File _) => (w, Raise (OSError «"[Errno 17] File exists"»))
  | Some Dir => (w, Ok tt)
  | None =>
    if decide (d ∈ unwritable w)
    then (w, Raise (OSError «"[Errno 13] Permission denied"»))
    else (set_fs w (<[d := Dir]> (fs w)), Ok tt)
  end.

(** [open(p, 'wb')] followed by [write(content)]. *)
Definition write_file (w : world) (p : pystr) (content : list Byte.byte)
  : world * result unit :=
  match fs w !! p with
  | Some Dir => (w, Raise (OSError «"[Errno 21] Is a directory"»))
  | _ =>
    if decide (p ∈ unwritable w)
    then (w, Raise (OSError «"[Errno 13] Permission denied"»))
    else (set_fs w (<[p := File content]> (fs w)), Ok tt)
  end.

(** [open(p, 'rb')] followed by [read()]. *)
Definition read_file (w : world) (p : pystr) : result (list Byte.byte) :=
  match fs w !! p with
  | Some (File content) => Ok content
  | Some Dir => Raise (OSError «"[Errno 21] Is a directory"»)
  | None => Raise (OSError «"[Errno 2] No such file or directory"»)
  end.

End Os.

(** [now.strftime(...)] for the three formats of [file_service.py]. *)
Module Clock.

Definition zfill (width : nat) (s : pystr) : pystr :=
  repeat 48%N (width - length s) ++ s.

Definition pad (width : nat) (z : Z) : pystr := zfill width (Str.of_Z z).

(** ["%Y"] *)
Definition fmt_year (t : datetime) : pystr := pad 4 (dt_year t).
(** ["%m"] *)
Definition fmt_month (t : datetime) : pystr := pad 2 (dt_month t).
(** ["%Y%m%d_%H%M%S"] *)
Definition fmt_stamp (t : datetime) : pystr :=
  pad 4 (dt_year t) ++ pad 2 (dt_month t) ++ pad 2 (dt_day t) ++ «"_"»
  ++ pad 2 (dt_hour t) ++ pad 2 (dt_minute t) ++ pad 2 (dt_second t).

End Clock.

(** ** [file_service.py] *)

(** What FastAPI hands over as [UploadFile]. *)
Record UploadFile : Type := mk_upload {
  filename : option pystr;
  content_type : option pystr;
  body : list Byte.byte
}.

Definition ALLOWED_EXTENSIONS : gset pystr :=
  {[ «".jpg"»; «".jpeg"»; «".png"»; «".heic"»; «".webp"» ]}.

Definition ALLOWED_MIME_TYPES : gset pystr :=
  {[ «"image/jpeg"»; «"image/jpg"»; «"image/png"»;
     «"image/heic"»; «"image/heif"»; «"image/webp"» ]}.

(** Truth value of an optional [str]: [None] and the empty string are false. *)
Definition opt_truthy (o : option pystr) : bool :=
  match o with Some s => Str.truthy s | None => false end.

Section FileService.
Context `{PyLib}.
Variable settings : Settings.

Definition get_file_extension (name : pystr) : pystr :=
  str_lower (path_suffix name).

Definition validate_file (file : UploadFile) : result unit :=
  match filename file with
  | Some name =>
    if negb (Str.truthy name)
    then Raise (HTTPException 400 «"파일명이 없습니다."»)
    else
      let ext := get_file_extension name in
      if negb (bool_decide (ext ∈ ALLOWED_EXTENSIONS))
      then Raise (HTTPException 400
                    («"허용되지 않는 파일 형식입니다. 허용 형식: "»
                     ++ Str.join «", "» (elements ALLOWED_EXTENSIONS)))
      else
        match content_type file with
        | Some ct =>
          if Str.truthy ct && negb (bool_decide (ct ∈ ALLOWED_MIME_TYPES))
          then Raise (HTTPException 400
                        («"허용되지 않는 MIME 타입입니다: "» ++ ct))
          else Ok tt
        | None => Ok tt
        end
  | None => Raise (HTTPException 400 «"파일명이 없습니다."»)
  end.

Definition generate_filename (w : world) (original_filename : pystr) : pystr :=
  let ext := get_file_extension original_filename in
  let timestamp := Clock.fmt_stamp (utcnow w) in
  «"receipt_"» ++ timestamp ++ ext.

(** Returns [(full_path, relative_path)]; creates the directory. *)
Definition get_storage_path (w : world) (name : pystr)
  : world * result (pystr * pystr) :=
  let year := Clock.fmt_year (utcnow w) in
  let month := Clock.fmt_month (utcnow w) in
  let relative_dir := «"receipts/"» ++ year ++ «"/"» ++ month in
  let full_dir := Os.path_join (upload_dir settings) relative_dir in
  match Os.makedirs w full_dir with
  | (w, Raise e) => (w, Raise e)
  | (w, Ok _) =>
    let relative_path := Os.path_join relative_dir name in
    let full_path := Os.path_join (upload_dir settings) relative_path in
    (w, Ok (full_path, relative_path))
  end.

(** Lines 135-164, the body of the [try]. *)
Definition save_body (w : world) (file : UploadFile) : world * result pystr :=
  match validate_file file with
  | Raise e => (w, Raise e)
  | Ok _ =>
    let file_content := body file in
    let file_size := Z.of_nat (length file_content) in
    if file_size >? max_file_size settings
    then (w, Raise (HTTPException 400
                      («"파일 크기가 너무 큽니다. 최대 크기: "»
                       ++ format_megabytes (max_file_size settings) ++ «"MB"»)))
    else if file_size =? 0
    then (w, Raise (HTTPException 400 «"빈 파일은 업로드할 수 없습니다."»))
    else
      match filename file with
      | None => (w, Raise (TypeError «"expected str, not NoneType"»))
      | Some original =>
        let name := generate_filename w original in
        match get_storage_path w name with
        | (w, Raise e) => (w, Raise e)
        | (w, Ok (full_path, relative_path)) =>
          match Os.write_file w full_path file_content with
          | (w, Raise e) => (w, Raise e)
          | (w, Ok _) => (w, Ok relative_path)
          end
        end
      end
  end.

(** [save_uploaded_file]: an [HTTPException] passes, anything else
    becomes a 500 (lines 166-170). *)
Definition save_uploaded_file (w : world) (file : UploadFile)
  : world * result pystr :=
  match save_body w file with
  | (w, Ok p) => (w, Ok p)
  | (w, Raise (HTTPException s d)) => (w, Raise (HTTPException s d))
  | (w, Raise _) => (w, Raise (HTTPException 500 «"파일 저장에 실패했습니다."»))
  end.

(** Lines 184-196, the body of the [try] of [delete_file]. *)
Definition delete_body (w : world) (file_path : pystr) : world * result bool :=
  let full_path := Os.path_join (upload_dir settings) file_path in
  if negb (Os.exists_ w full_path) then (w, Ok false)
  else
    match Os.remove w full_path with
    | (w, Raise e) => (w, Raise e)
    | (w, Ok _) => (w, Ok true)
    end.

(** [delete_file]: any exception is turned into [False]. *)
Definition delete_file (w : world) (file_path : pystr) : world * result bool :=
  match delete_body w file_path with
  | (w, Ok b) => (w, Ok b)
  | (w, Raise _) => (w, Ok false)
  end.

Definition get_file_path (file_path : pystr) : pystr :=
  if negb (Str.truthy file_path) then []
  else Os.path_join (upload_dir settings) file_path.

End FileService.

(** ** [ocr_service.py]: the retry loop *)

(** One request to the vision endpoint, as [asyncio.wait_for] hands it
    back: an exception, or [response.choices[0].message.content], which may
    be [None]. *)
Inductive api_outcome : Type :=
| ApiRaise (e : exn)
| ApiContent (content : option pystr).

(** What an [except] clause of the loop decides. *)
Inductive handled : Type :=
| Retry (last_error : pystr)
| Fatal (e : exn).

Section OcrService.
Context `{PyLib}.
Variable settings : Settings.
(** [vision n]: what the endpoint answers to the request of attempt [n]. *)
Variable vision : Z -> api_outcome.

Definition get_openai_client (w : world) : world * result unit :=
  if client w then (w, Ok tt)
  else if negb (opt_truthy (openai_api_key settings))
  then (w, Raise (ValueError
         «"OpenAI API 키가 설정되지 않았습니다. OPENAI_API_KEY 환경 변수를 설정해주세요."»))
  else (set_client w true, Ok tt).

Definition encode_image (w : world) (image_path : pystr)
  : result (list Byte.byte) :=
  Os.read_file w image_path.

Definition get_image_mime_type (image_path : pystr) : pystr :=
  let ext := str_lower (path_suffix image_path) in
  if decide (ext = «".jpg"») then «"image/jpeg"»
  else if decide (ext = «".jpeg"») then «"image/jpeg"»
  else if decide (ext = «".png"») then «"image/png"»
  else if decide (ext = «".heic"») then «"image/heic"»
  else if decide (ext = «".webp"») then «"image/webp"»
  else «"image/jpeg"».

(** Lines 227-251: everything before the loop.  Returns the MIME type and
    the image bytes the requests carry. *)
Definition prepare (w : world) (image_path : pystr)
  : world * result (pystr * list Byte.byte) :=
  match get_openai_client w with
  | (w, Raise e) => (w, Raise e)
  | (w, Ok _) =>
    let full_image_path :=
      if negb (Os.isabs image_path) then get_file_path settings image_path
      else image_path in
    if negb (Os.exists_ w full_image_path)
    then (w, Raise (ValueError
                      («"이미지 파일을 찾을 수 없습니다: "» ++ full_image_path)))
    else
      match encode_image w full_image_path with
      | Raise e =>
        (w, Raise (ValueError
                     («"이미지 파일을 읽을 수 없습니다: "» ++ exn_str e)))
      | Ok image => (w, Ok (get_image_mime_type full_image_path, image))
      end
  end.

(** Lines 263-300, the body of the [try] of one attempt, after the request
    has been sent. *)
Definition attempt_body (attempt : Z) : result ocr_result :=
  match vision attempt with
  | ApiRaise e => Raise e
  | ApiContent response_text =>
    match response_text with
    | Some text =>
      if negb (Str.truthy text)
      then Raise (ValueError «"OpenAI API가 빈 응답을 반환했습니다."»)
      else parse_ocr_response text
    | None => Raise (ValueError «"OpenAI API가 빈 응답을 반환했습니다."»)
    end
  end.

(** The [except] clauses at lines 302-322, in their order. *)
Definition handle_error (timeout : Z) (e : exn) : handled :=
  match e with
  | AsyncioTimeoutError =>
    Retry («"OCR 처리 타임아웃 ("» ++ Str.of_Z timeout ++ «"초 초과)"»)
  | _ =>
    if is_APIConnectionError e
    then Retry («"API 연결 오류: "» ++ exn_str e)
    else if is_APIError e
    then Fatal (ValueError («"OpenAI API 호출 실패: "» ++ exn_str e))
    else if is_ValueError e
    then Fatal e
    else Retry («"예상치 못한 오류: "» ++ exn_str e)
  end.

(** [f"{last_error}"] *)
Definition fmt_last_error (last_error : option pystr) : pystr :=
  match last_error with Some m => m | None => «"None"» end.

(** [range(1, max_retries + 1)] *)
Definition attempts_range (max_retries : Z) : list Z :=
  map Z.of_nat (seq 1 (Z.to_nat max_retries)).

(** Lines 259-332: the [for] loop over the attempts still to make, and
    the [raise] after it. *)
Fixpoint retry_loop (max_retries timeout : Z) (attempts : list Z)
    (last_error : option pystr) (w : world) : world * result ocr_result :=
  match attempts with
  | [] =>
    (w, Raise (ValueError
                 («"OCR 처리에 실패했습니다: "» ++ fmt_last_error last_error)))
  | attempt :: rest =>
    let w := emit w (EvCall attempt) in
    match attempt_body attempt with
    | Ok r => (w, Ok r)
    | Raise e =>
      match handle_error timeout e with
      | Fatal e' => (w, Raise e')
      | Retry msg =>
        let w :=
          if attempt <? max_retries
          then emit w (EvSleep (attempt * 2))
          else w in
        retry_loop max_retries timeout rest (Some msg) w
      end
    end
  end.

Definition process_receipt_image (w : world) (image_path : pystr)
    (max_retries timeout : Z) : world * result ocr_result :=
  match prepare w image_path with
  | (w, Raise e) => (w, Raise e)
  | (w, Ok _) =>
    retry_loop max_retries timeout (attempts_range max_retries) None w
  end.

End OcrService.

(** ** [api/receipts.py]: the upload endpoint *)

(** The fields of [ReceiptOCRResponse]: the seven of the result and
    [receiptImagePath]. *)
Record ReceiptOCRResponse : Type := mk_response {
  ocr : ocr_result;
  receiptImagePath : pystr
}.

Section UploadEndpoint.
Context `{PyLib}.
Variable settings : Settings.
Variable vision : Z -> api_outcome.

(** The clean-up of each handler: [if saved_file_path:] then
    [delete_file], whose own exceptions are passed over. *)
Definition cleanup (w : world) (saved_file_path : option pystr) : world :=
  match saved_file_path with
  | Some p => if Str.truthy p then fst (delete_file settings w p) else w
  | None => w
  end.

(** The three [except] clauses (lines 63-96). *)
Definition on_error (w : world) (saved_file_path : option pystr) (e : exn)
  : world * result ReceiptOCRResponse :=
  if is_ValueError e
  then (cleanup w saved_file_path, Raise (HTTPException 400 (exn_str e)))
  else if is_HTTPException e
  then (cleanup w saved_file_path, Raise e)
  else (cleanup w saved_file_path,
        Raise (HTTPException 500 «"OCR 처리 중 오류가 발생했습니다."»)).

Definition process_receipt_ocr (w : world) (file : UploadFile)
  : world * result ReceiptOCRResponse :=
  match save_uploaded_file settings w file with
  | (w, Raise e) => on_error w None e
  | (w, Ok saved_file_path) =>
    match process_receipt_image settings vision w saved_file_path 3 30 with
    | (w, Raise e) => on_error w (Some saved_file_path) e
    | (w, Ok ocr_result) =>
      match response_model ocr_result saved_file_path with
      | Some e => on_error w (Some saved_file_path) e
      | None =>
        (w, Ok {| ocr := ocr_result; receiptImagePath := saved_file_path |})
      end
    end
  end.

End UploadEndpoint.

(** ** [api/receipts.py]: the save endpoint *)

(** A document of the [categories] collection; the endpoint reads its name. *)
Record category_doc : Type := mk_category {
  cat_name : pystr;
  cat_type : pystr
}.

(** A document of the [transactions] collection as the endpoint writes it. *)
Record transaction_doc : Type := mk_transaction {
  t_id : Z;
  t_type : pystr;
  t_date : datetime;
  t_amount : float;
  t_category : pystr;
  t_memo : pystr;
  t_receiptImagePath : option pystr;
  t_createdAt : datetime;
  t_updatedAt : datetime
}.

(** The two collections; [next_id] is the [_id] the next insert gets. *)
Record store : Type := mk_store {
  categories : list category_doc;
  transactions : list transaction_doc;
  next_id : Z
}.

(** [ReceiptSaveRequest] of [schemas/receipt.py]. *)
Record ReceiptSaveRequest : Type := mk_save_request {
  req_date : pystr;
  req_store : option pystr;
  req_items : list (pystr * float);
  req_total : float;
  req_category : pystr;
  req_memo : option pystr;
  req_receiptImagePath : option pystr;
  req_type : pystr
}.

Module Mongo.

(** [category_collection.find_one({"name": name})] *)
Definition find_category (st : store) (name : pystr) : option category_doc :=
  List.find (fun c => bool_decide (cat_name c = name)) (categories st).

(** [collection.insert_one(document)]: returns [inserted_id]. *)
Definition insert_one (st : store) (doc : Z -> transaction_doc) : store * Z :=
  let id := next_id st in
  ({| categories := categories st;
      transactions := transactions st ++ [doc id];
      next_id := id + 1 |}, id).

(** [collection.find_one({"_id": id})] *)
Definition find_transaction (st : store) (id : Z) : option transaction_doc :=
  List.find (fun t => t_id t =? id) (transactions st).

End Mongo.

Section SaveEndpoint.
Context `{PyLib}.

(** Lines 123-133: ISO-8601 first, then a bare date. *)
Definition parse_date (date : pystr) : option datetime :=
  match fromisoformat (Str.replace_char 90%N «"+00:00"» date) with
  | Some d => Some d
  | None => strptime_ymd date
  end.

(** Lines 148-158: the memo, with the merchant name appended. *)
Definition memo_with_store (memo store_name : option pystr) : pystr :=
  let memo := match memo with Some m => m | None => [] end in
  if opt_truthy store_name
  then
    let store_memo :=
      «"상호: "» ++ match store_name with Some s => s | None => [] end in
    if Str.truthy memo then memo ++ «" | "» ++ store_memo else store_memo
  else memo.

(** Lines 111-172, the body of the [try].  [db] is the module-level
    [database] of [database.py], [None] until the connection is made;
    [now] is what [datetime.utcnow()] reads. *)
Definition save_transaction_body (now : datetime) (db : option store)
    (request : ReceiptSaveRequest) : option store * result transaction_doc :=
  match db with
  | None =>
    (db, Raise (RuntimeError
      «"데이터베이스가 초기화되지 않았습니다. connect_to_mongo()를 먼저 호출하세요."»))
  | Some st =>
    match Mongo.find_category st (req_category request) with
    | None =>
      (db, Raise (HTTPException 400
             («"'"» ++ req_category request ++ «"' 카테고리가 존재하지 않습니다."»)))
    | Some _ =>
      match parse_date (req_date request) with
      | None =>
        (db, Raise (HTTPException 400
               «"날짜 형식이 올바르지 않습니다. YYYY-MM-DD 형식을 사용해주세요."»))
      | Some transaction_date =>
        if negb (bool_decide (req_type request ∈ [«"expense"»; «"income"»]))
        then (db, Raise (HTTPException 400
                    «"type은 'expense' 또는 'income'이어야 합니다."»))
        else
          let document id :=
            {| t_id := id;
               t_type := req_type request;
               t_date := transaction_date;
               t_amount := req_total request;
               t_category := req_category request;
               t_memo := memo_with_store (req_memo request) (req_store request);
               t_receiptImagePath := req_receiptImagePath request;
               t_createdAt := now;
               t_updatedAt := now |} in
          let '(st, inserted_id) := Mongo.insert_one st document in
          match Mongo.find_transaction st inserted_id with
          | None =>
            (Some st, Raise (HTTPException 500
                        «"거래 내역 생성 후 조회에 실패했습니다."»))
          | Some created => (Some st, Ok created)
          end
      end
    end
  end.

(** [save_receipt_transaction]: an [HTTPException] passes, anything else
    becomes a 500 (lines 174-178). *)
Definition save_receipt_transaction (now : datetime) (db : option store)
    (request : ReceiptSaveRequest) : option store * result transaction_doc :=
  match save_transaction_body now db request with
  | (db, Ok t) => (db, Ok t)
  | (db, Raise (HTTPException s d)) => (db, Raise (HTTPException s d))
  | (db, Raise _) =>
    (db, Raise (HTTPException 500 «"거래 내역 저장에 실패했습니다."»))
  end.

End SaveEndpoint.

(** ** A library instance on concrete inputs

    [Sample.lib] gives the library functions on the inputs the examples
    below run on, with the values CPython returns there: [json.loads] and
    the two date parsers as finite tables, [Path(name).suffix] for a bare
    file name, [lower] on ASCII, and the constraints [schemas/receipt.py]
    declares for the response model. *)
Module Sample.

(** [s] between double quotes. *)
Definition q (s : pystr) : pystr := [34%N] ++ s ++ [34%N].

Definition four_and_a_half : float :=
  Eval vm_compute in binary_normalize prec emax 9 (-1) false.
Definition one_and_a_half : float :=
  Eval vm_compute in binary_normalize prec emax 3 (-1) false.
Definition minus_five : float :=
  Eval vm_compute in binary_normalize prec emax (-5) 0 false.

(** [{"total": -5}] *)
Definition text_negative_total : pystr :=
  «"{"» ++ q «"total"» ++ «": -5}"».

(** [[1, 2]] *)
Definition text_array : pystr := «"[1, 2]"».

Definition text_not_json : pystr := «"I could not read the receipt."».

(** [{"total": "abc", "confidence": 1.5, "items": [{"name": "Latte",
    "price": 4.5}, {"name": "Tea", "price": null}, 7]}], fenced. *)
Definition text_sloppy_body : pystr :=
  «"{"» ++ q «"total"» ++ «": "» ++ q «"abc"» ++ «", "»
  ++ q «"confidence"» ++ «": 1.5, "» ++ q «"items"» ++ «": [{"»
  ++ q «"name"» ++ «": "» ++ q «"Latte"» ++ «", "» ++ q «"price"»
  ++ «": 4.5}, {"» ++ q «"name"» ++ «": "» ++ q «"Tea"» ++ «", "»
  ++ q «"price"» ++ «": null}, 7]}"».

Definition text_sloppy : pystr :=
  «"```json"» ++ [10%N] ++ text_sloppy_body ++ [10%N] ++ «"```"» ++ [10%N].

Definition value_sloppy : pyval :=
  PyDict [(«"total"», PyStr «"abc"»);
          («"confidence"», PyFloat one_and_a_half);
          («"items"»,
           PyList [PyDict [(«"name"», PyStr «"Latte"»);
                           («"price"», PyFloat four_and_a_half)];
                   PyDict [(«"name"», PyStr «"Tea"»); («"price"», PyNone)];
                   PyInt 7])].

Definition loads (text : pystr) : result pyval :=
  if decide (text = text_negative_total)
  then Ok (PyDict [(«"total"», PyInt (-5))])
  else if decide (text = text_array)
  then Ok (PyList [PyInt 1; PyInt 2])
  else if decide (text = text_sloppy_body)
  then Ok value_sloppy
  else Raise (JSONDecodeError «"Expecting value: line 1 column 1 (char 0)"»).

(** [Path(name).suffix] when [name] has no separator: from the last
    dot, unless that dot is the first or the last character. *)
Fixpoint after_last_dot (s : pystr) (acc : option pystr) : option pystr :=
  match s with
  | [] => acc
  | c :: s' => after_last_dot s' (if (c =? 46)%N then Some s' else acc)
  end.

Definition suffix (name : pystr) : pystr :=
  match name with
  | [] => []
  | _ :: tail =>
    match after_last_dot tail None with
    | Some (c :: ext) => 46%N :: c :: ext
    | _ => []
    end
  end.

Definition lower (s : pystr) : pystr :=
  map (fun c => if ((65 <=? c) && (c <=? 90))%N then (c + 32)%N else c) s.

Definition march_15 : datetime :=
  {| dt_year := 2024; dt_month := 3; dt_day := 15;
     dt_hour := 0; dt_minute := 0; dt_second := 0 |}.

Definition isoformat (s : pystr) : option datetime :=
  if decide (s = «"2024-03-15"») then Some march_15 else None.

Definition nonneg_or_none (v : pyval) : bool :=
  match v with
  | PyNone => true
  | PyFloat f => fle float_zero f
  | _ => false
  end.

Definition str_or_none (v : pyval) : bool :=
  match v with PyNone | PyStr _ => true | _ => false end.

Definition item_ok (v : pyval) : bool :=
  match v with
  | PyDict [(_, PyStr _); (_, PyFloat f)] => fle float_zero f
  | _ => false
  end.

(** [date], [store], [category]: optional [str]; [items]: names with
    prices [>= 0]; [total]: optional, [>= 0]; [confidence] in [0, 1];
    [rawText]: [str]. *)
Definition schema (r : ocr_result) (path : pystr) : option exn :=
  if str_or_none (r_date r) && str_or_none (r_store r)
     && match r_items r with PyList l => forallb item_ok l | _ => false end
     && nonneg_or_none (r_total r) && str_or_none (r_category r)
     && match r_confidence r with
        | PyFloat c => fle float_zero c && fle c float_one
        | _ => false
        end
     && match r_rawText r with PyStr _ => true | _ => false end
  then None
  else Some (ValidationError «"validation error for ReceiptOCRResponse"»).

#[local] Instance lib : PyLib :=
  {| json_loads := loads;
     float_of_str := fun _ => None;
     repr := fun v =>
       match v with PyStr s => «"'"» ++ s ++ «"'"» | _ => type_name v end;
     path_suffix := suffix;
     str_lower := lower;
     fromisoformat := isoformat;
     strptime_ymd := isoformat;
     format_megabytes := fun n => Str.of_Z (n / 1048576) ++ «".0"»;
     response_model := schema |}.

End Sample.

(** ** The properties, as the specification words them *)

(** *** ExtractionResult *)

(** A number in [0.0, 1.0]. *)
Definition unit_float (v : pyval) : Prop :=
  exists c, v = PyFloat c /\ fle float_zero c = true /\ fle c float_one = true.

(** Absent, or a [float]. *)
Definition optional_float (v : pyval) : Prop :=
  v = PyNone \/ exists t, v = PyFloat t.

(** Absent, or a non-negative number. *)
Definition optional_nonneg (v : pyval) : Prop :=
  v = PyNone \/ exists t, v = PyFloat t /\ fle float_zero t = true.

(** A mapping of a string name and a [float] price. *)
Definition receipt_item (v : pyval) : Prop :=
  exists name price,
    v = PyDict [(«"name"», PyStr name); («"price"», PyFloat price)].

(** A mapping of a string name and a non-negative price. *)
Definition receipt_item_nonneg (v : pyval) : Prop :=
  exists name price,
    v = PyDict [(«"name"», PyStr name); («"price"», PyFloat price)]
    /\ fle float_zero price = true.

(** The result the sanitizer is said to give on every JSON object. *)
Definition strictly_typed (r : ocr_result) : Prop :=
  unit_float (r_confidence r)
  /\ optional_nonneg (r_total r)
  /\ exists l, r_items r = PyList l /\ Forall receipt_item_nonneg l.

Section SanitizerSpec.
Context `{PyLib}.

(** The sanitizer as the sentence on every parseable object has it. *)
Definition sanitizes_strictly (response_text : pystr) : Prop :=
  forall d,
    json_loads (strip_fences response_text) = Ok (PyDict d) ->
    exists r, parse_ocr_response response_text = Ok r /\ strictly_typed r.

(** An [int] too large for [float]. *)
Definition overflows (v : pyval) : bool :=
  match v with
  | PyInt z => negb (is_Ok (float_of_int z))
  | _ => false
  end.

Definition field (d : list (pystr * pyval)) (k : pystr) : pyval :=
  match dict_lookup k d with Some v => v | None => PyNone end.

Definition items_of (d : list (pystr * pyval)) : list pyval :=
  match dict_lookup «"items"» d with
  | Some (PyList l) => l
  | _ => []
  end.

Definition price_fits (item : pyval) : bool :=
  match item with
  | PyDict e => negb (overflows (field e «"price"»))
  | _ => true
  end.

(** No integer among total, confidence and the prices is beyond the
    range of [float]. *)
Definition within_float_range (d : list (pystr * pyval)) : bool :=
  negb (overflows (field d «"total"»))
  && negb (overflows (field d «"confidence"»))
  && forallb price_fits (items_of d).

(** A total that fails coercion is dropped. *)
Definition total_or_dropped (v : pyval) : pyval :=
  match py_float v with
  | Ok t => PyFloat t
  | Raise _ => PyNone
  end.

(** A confidence that is missing or fails coercion is 0.0; otherwise it
    is clamped. *)
Definition confidence_or_default (o : option pyval) : pyval :=
  match o with
  | None => PyFloat float_zero
  | Some v =>
    match py_float v with
    | Ok c => PyFloat (py_max float_zero (py_min float_one c))
    | Raise _ => PyFloat float_zero
    end
  end.

(** An entry is kept when it is a mapping with a name and a price that
    coerces; it is discarded otherwise, alone. *)
Definition retained (item : pyval) : option pyval :=
  match item with
  | PyDict e =>
    match dict_lookup «"name"» e, dict_lookup «"price"» e with
    | Some name, Some price =>
      match py_float price with
      | Ok p => Some (PyDict [(«"name"», PyStr (py_str name));
                              («"price"», PyFloat p)])
      | Raise _ => None
      end
    | _, _ => None
    end
  | _ => None
  end.

Definition retained_items (items : list pyval) : list pyval :=
  omap retained items.

End SanitizerSpec.

(** *** RetryOrchestrator *)

(** The world after more events. *)
Definition extend (w : world) (evs : list event) : world :=
  {| fs := fs w; unwritable := unwritable w; undeletable := undeletable w;
     utcnow := utcnow w; client := client w; trace := trace w ++ evs |}.

(** A retryable error: the per-call timeout, or an API connection or
    transport error. *)
Definition transient (e : exn) : bool :=
  match e with
  | AsyncioTimeoutError | APITimeoutError _ | APIConnectionError _ => true
  | _ => false
  end.

(** The message kept for a retryable error. *)
Definition transient_message (timeout : Z) (e : exn) : pystr :=
  match e with
  | AsyncioTimeoutError =>
    «"OCR 처리 타임아웃 ("» ++ Str.of_Z timeout ++ «"초 초과)"»
  | _ => «"API 연결 오류: "» ++ exn_str e
  end.

(** Attempt [n] followed by its backoff of [n * base_delay] seconds,
    [base_delay = 2]. *)
Definition backed_off (n : Z) : list event := [EvCall n; EvSleep (n * 2)].

(** The events of a run whose attempts all fail and are retried: every
    attempt but the last is followed by its backoff. *)
Definition exhausted_trace (max_attempts : Z) : list event :=
  flat_map backed_off (attempts_range (max_attempts - 1)) ++ [EvCall max_attempts].

(** The attempts that sent a request, and the sleeps, in order. *)
Definition calls (t : list event) : list Z :=
  omap (fun ev => match ev with EvCall n => Some n | EvSleep _ => None end) t.

Definition sleeps (t : list event) : list Z :=
  omap (fun ev => match ev with EvSleep s => Some s | EvCall _ => None end) t.

(** The message attempt [n] leaves in [last_error] when it is retried. *)
Definition left_by (vision : Z -> api_outcome) (timeout n : Z) : option pystr :=
  match vision n with
  | ApiRaise e =>
    match handle_error timeout e with
    | Retry msg => Some msg
    | Fatal _ => None
    end
  | ApiContent _ => None
  end.

(** Concrete runs. *)
Module Run.

Definition settings : Settings :=
  {| openai_api_key := Some «"sk-test"»;
     upload_dir := «"./uploads"»;
     max_file_size := 10485760 |}.

Definition no_key : Settings := default_settings.

Definition now : datetime :=
  {| dt_year := 2024; dt_month := 3; dt_day := 15;
     dt_hour := 10; dt_minute := 15; dt_second := 30 |}.

Definition relative_path : pystr :=
  «"receipts/2024/03/receipt_20240315_101530.jpg"».

Definition full_path : pystr :=
  «"./uploads/receipts/2024/03/receipt_20240315_101530.jpg"».

Definition jpeg : list Byte.byte := [Byte.xff; Byte.xd8; Byte.xff; Byte.xe0].

(** Nothing stored yet. *)
Definition fresh : world :=
  {| fs := ∅; unwritable := ∅; undeletable := ∅;
     utcnow := now; client := false; trace := [] |}.

(** The receipt is on disk. *)
Definition stored : world :=
  {| fs := {[ full_path := File jpeg ]}; unwritable := ∅; undeletable := ∅;
     utcnow := now; client := false; trace := [] |}.

(** As [fresh], but the receipt, once written, cannot be unlinked. *)
Definition sticky : world :=
  {| fs := ∅; unwritable := ∅; undeletable := {[ full_path ]};
     utcnow := now; client := false; trace := [] |}.

Definition photo : UploadFile :=
  {| filename := Some «"photo.jpg"»;
     content_type := Some «"image/jpeg"»;
     body := jpeg |}.

Definition document : UploadFile :=
  {| filename := Some «"notes.txt"»;
     content_type := Some «"text/plain"»;
     body := jpeg |}.

(** The endpoint cannot be reached. *)
Definition down (n : Z) : api_outcome :=
  ApiRaise (APIConnectionError «"Connection error."»).

(** The remote service rejects the request. *)
Definition rejected (n : Z) : api_outcome :=
  ApiRaise (APIError «"Error code: 401"»).

(** A reply that is not JSON. *)
Definition chatty (n : Z) : api_outcome :=
  ApiContent (Some Sample.text_not_json).

(** A timeout, then a fenced object. *)
Definition slow_start (n : Z) : api_outcome :=
  if n =? 1 then ApiRaise AsyncioTimeoutError
  else ApiContent (Some Sample.text_sloppy).

(** A timeout, then a reply without content. *)
Definition then_empty (n : Z) : api_outcome :=
  if n =? 1 then ApiRaise AsyncioTimeoutError
  else ApiContent None.

Definition ledger : store :=
  {| categories := [ {| cat_name := «"식비"»; cat_type := «"expense"» |} ];
     transactions := [];
     next_id := 1 |}.

Definition save_request (category : pystr) : ReceiptSaveRequest :=
  {| req_date := «"2024-03-15"»;
     req_store := Some «"Cafe A"»;
     req_items := [(«"Latte"», Sample.four_and_a_half)];
     req_total := Sample.four_and_a_half;
     req_category := category;
     req_memo := None;
     req_receiptImagePath := Some relative_path;
     req_type := «"expense"» |}.

Definition full_dir : pystr := «"./uploads/receipts/2024/03"».

(** [fresh] and [sticky] once [photo] has been saved. *)
Definition saved : world :=
  {| fs := <[full_path := File jpeg]> (<[full_dir := Dir]> ∅);
     unwritable := ∅; undeletable := ∅;
     utcnow := now; client := false; trace := [] |}.

Definition saved_sticky : world :=
  {| fs := <[full_path := File jpeg]> (<[full_dir := Dir]> ∅);
     unwritable := ∅; undeletable := {[ full_path ]};
     utcnow := now; client := false; trace := [] |}.

(** What extraction raises when the endpoint is [down] for three attempts. *)
Definition exhausted : exn :=
  ValueError («"OCR 처리에 실패했습니다: "»
              ++ transient_message 30 (APIConnectionError «"Connection error."»)).

End Run.

(** *** The upload endpoint *)

(** [p in s] for strings. *)
Fixpoint contains (s p : pystr) : bool :=
  Str.startswith s p
  || match s with
     | [] => false
     | _ :: s' => contains s' p
     end.

(** A failure reported as a server error whose message keeps the upstream
    cause to itself. *)
Definition generic_server_error (r : result ReceiptOCRResponse) (cause : pystr)
  : Prop :=
  exists status detail,
    r = Raise (HTTPException status detail)
    /\ 500 <= status <= 599
    /\ contains detail cause = false.

(** The error the caller sees for the error a pipeline stage raised. *)
Definition surfaced (original : exn) : exn :=
  if is_ValueError original then HTTPException 400 (exn_str original)
  else if is_HTTPException original then original
  else HTTPException 500 «"OCR 처리 중 오류가 발생했습니다."».

Section UploadSpec.
Context `{PyLib}.
Variable settings : Settings.
Variable vision : Z -> api_outcome.

(** A stage after the file was written fails with [original]: the
    extraction raises it, or the response model refuses the result. *)
Definition later_stage_fails (w1 : world) (saved : pystr) (original : exn)
  : Prop :=
  let stage := process_receipt_image settings vision w1 saved 3 30 in
  snd stage = Raise original
  \/ exists r, snd stage = Ok r /\ response_model r saved = Some original.

(** The five reasons to reject an upload. *)
Definition invalid_upload (file : UploadFile) : Prop :=
  opt_truthy (filename file) = false
  \/ (exists name, filename file = Some name
                   /\ get_file_extension name ∉ ALLOWED_EXTENSIONS)
  \/ (exists ct, content_type file = Some ct
                 /\ Str.truthy ct = true
                 /\ ct ∉ ALLOWED_MIME_TYPES)
  \/ length (body file) = 0%nat
  \/ max_file_size settings < Z.of_nat (length (body file)).

Definition invalid_uploadb (file : UploadFile) : bool :=
  negb (opt_truthy (filename file))
  || match filename file with
     | Some name =>
       negb (bool_decide (get_file_extension name ∈ ALLOWED_EXTENSIONS))
     | None => false
     end
  || match content_type file with
     | Some ct => Str.truthy ct && negb (bool_decide (ct ∈ ALLOWED_MIME_TYPES))
     | None => false
     end
  || (Z.of_nat (length (body file)) =? 0)
  || (max_file_size settings <? Z.of_nat (length (body file))).

End UploadSpec.

(** ** The rest of the three files *)

(** [file_service.py], lines 203-230. *)
Definition base_url : pystr := «"http://localhost:8000"».

Definition get_file_url (file_path : pystr) : pystr :=
  let file_path := Str.strip file_path in
  if negb (Str.truthy file_path) then []
  else
    let file_path := Str.replace_char 92%N «"/"» file_path in
    let file_path :=
      if negb (Str.startswith file_path «"/"») then «"/"» ++ file_path
      else file_path in
    base_url ++ «"/api/files"» ++ file_path.

(** *** Shapes and invariants the code keeps *)

(** The events one run of the retry loop can leave: none, or the requests
    1 to [k], each but the last followed by its backoff. *)
Definition run_shape (max_attempts : Z) (evs : list event) : Prop :=
  evs = []
  \/ exists k, 1 <= k <= max_attempts
               /\ evs = flat_map backed_off (attempts_range (k - 1)) ++ [EvCall k].

(** An error none of the named [except] clauses takes: it reaches the
    final [except Exception]. *)
Definition unexpected (e : exn) : bool :=
  match e with
  | AsyncioTimeoutError => false
  | _ => negb (is_APIError e) && negb (is_ValueError e)
  end.

(** Every stored transaction has an [_id] the store has already given out. *)
Definition ids_issued (st : store) : Prop :=
  Forall (fun t => t_id t < next_id st) (transactions st).

(** More concrete inputs. *)
Module Scene.

(** [{"confidence": null, "total": 12}] *)
Definition text_null_confidence : pystr :=
  «"{"» ++ Sample.q «"confidence"» ++ «": null, "»
  ++ Sample.q «"total"» ++ «": 12}"».

(** [{"total": 1e400 written out as an integer}]: a one and four hundred
    zeros. *)
Definition text_huge_total : pystr :=
  «"{"» ++ Sample.q «"total"» ++ «": 1"» ++ repeat 48%N 400 ++ «"}"».

Definition loads (text : pystr) : result pyval :=
  if decide (text = text_null_confidence)
  then Ok (PyDict [(«"confidence"», PyNone); («"total"», PyInt 12)])
  else if decide (text = text_huge_total)
  then Ok (PyDict [(«"total"», PyInt (10 ^ 400))])
  else Sample.loads text.

#[local] Instance lib : PyLib :=
  {| json_loads := loads;
     float_of_str := float_of_str (PyLib := Sample.lib);
     repr := repr (PyLib := Sample.lib);
     path_suffix := Sample.suffix;
     str_lower := Sample.lower;
     fromisoformat := Sample.isoformat;
     strptime_ymd := Sample.isoformat;
     format_megabytes := format_megabytes (PyLib := Sample.lib);
     response_model := Sample.schema |}.

(** The fenced reply of [Sample.text_sloppy], between its fences. *)
Definition fenced_body : pystr := [10%N] ++ Sample.text_sloppy_body ++ [10%N].

(** The request handler of the vision client crashes every time. *)
Definition crashing (n : Z) : api_outcome :=
  ApiRaise (OtherException «"boom"»).

(** Two timeouts, then a fenced object. *)
Definition third_time (n : Z) : api_outcome :=
  if n <? 3 then ApiRaise AsyncioTimeoutError
  else ApiContent (Some Sample.text_sloppy).

(** A timeout, then the remote service refuses. *)
Definition quota (n : Z) : api_outcome :=
  if n =? 1 then ApiRaise AsyncioTimeoutError
  else ApiRaise (APIError «"Error code: 429"»).

(** A fenced object at once. *)
Definition prompt_reply (n : Z) : api_outcome :=
  ApiContent (Some Sample.text_sloppy).

(** An object the response model accepts. *)
Definition text_clean : pystr := «"{}"».

(** The client is built, and where the receipt should be is a directory. *)
Definition directory : world :=
  {| fs := <[Run.full_path := Dir]> ∅; unwritable := ∅; undeletable := ∅;
     utcnow := Run.now; client := true; trace := [] |}.

(** The upload directory cannot be created. *)
Definition read_only : world :=
  {| fs := ∅; unwritable := {[ Run.full_dir ]}; undeletable := ∅;
     utcnow := Run.now; client := false; trace := [] |}.




Definition removed : world :=
  {| fs := delete Run.full_path (fs Run.stored);
     unwritable := ∅; undeletable := ∅;
     utcnow := Run.now; client := false; trace := [] |}.

Definition bad_date : ReceiptSaveRequest :=
  {| req_date := «"15/03/2024"»;
     req_store := None;
     req_items := [];
     req_total := Sample.four_and_a_half;
     req_category := «"식비"»;
     req_memo := None;
     req_receiptImagePath := None;
     req_type := «"expense"» |}.

Definition bad_type : ReceiptSaveRequest :=
  {| req_date := «"2024-03-15"»;
     req_store := None;
     req_items := [];
     req_total := Sample.four_and_a_half;
     req_category := «"식비"»;
     req_memo := None;
     req_receiptImagePath := None;
     req_type := «"refund"» |}.

End Scene.

(** * Theorems *)

(** ** The sanitizer *)

Section SanitizerFacts.
Context `{PyLib}.

Lemma flt_fle (x y : float) : flt x y = true -> fle x y = true.
Proof.
  unfold flt, fle, SFltb, SFleb.
  destruct (SFcompare x y) as [[ | | ] | ]; congruence.
Qed.

(** The clamp lands in [0, 1] whatever the float, NaN included. *)
Lemma clamp_unit (c : float) :
  unit_float (PyFloat (py_max float_zero (py_min float_one c))).
Proof.
  exists (py_max float_zero (py_min float_one c)).
  split; [reflexivity | ].
  unfold py_max, py_min.
  destruct (flt c float_one) eqn:Hhi.
  - destruct (flt float_zero c) eqn:Hlo.
    + split; apply flt_fle; assumption.
    + split; reflexivity.
  - split; reflexivity.
Qed.

(** [float] fails on a value in range only with the two exceptions the
    inner handlers catch. *)
Lemma py_float_caught (v : pyval) (e : exn) :
  overflows v = false ->
  py_float v = Raise e ->
  is_ValueError e || is_TypeError e = true.
Proof.
  intros Hfit Hraise.
  destruct v as [ | b | z | f | s | l | d]; simpl in *;
    try (injection Hraise as <-; reflexivity); try discriminate.
  - destruct (float_of_int z); simpl in *; discriminate.
  - destruct (float_of_str s); [discriminate | ].
    injection Hraise as <-. reflexivity.
Qed.

Lemma coerce_total_spec (v : pyval) :
  overflows v = false ->
  coerce_total v = Ok (total_or_dropped v).
Proof.
  intros Hfit. unfold coerce_total, total_or_dropped.
  destruct (py_float v) as [t | e] eqn:Hf.
  - destruct v; try reflexivity. discriminate.
  - rewrite (py_float_caught v e Hfit Hf).
    destruct v; reflexivity.
Qed.

Lemma coerce_confidence_spec (v : pyval) :
  v <> PyNone ->
  overflows v = false ->
  coerce_confidence v = Ok (confidence_or_default (Some v)).
Proof.
  intros Hnone Hfit. unfold coerce_confidence, confidence_or_default.
  destruct (py_float v) as [c | e] eqn:Hf.
  - destruct v; try reflexivity. congruence.
  - rewrite (py_float_caught v e Hfit Hf).
    destruct v; try reflexivity. congruence.
Qed.

Lemma validate_item_spec (item : pyval) :
  price_fits item = true ->
  validate_item item = Ok (retained item).
Proof.
  intros Hfit. destruct item as [ | b | z | f | s | l | e]; try reflexivity.
  unfold validate_item, retained. simpl in Hfit. unfold field in Hfit.
  destruct (dict_lookup «"name"» e) as [name | ]; [ | reflexivity].
  destruct (dict_lookup «"price"» e) as [price | ]; [ | reflexivity].
  destruct (py_float price) as [p | ex] eqn:Hf; [reflexivity | ].
  apply negb_true_iff in Hfit.
  rewrite (py_float_caught price ex Hfit Hf). reflexivity.
Qed.

Lemma validate_items_spec (items : list pyval) :
  forallb price_fits items = true ->
  validate_items items = Ok (retained_items items).
Proof.
  induction items as [ | item rest IH]; intros Hfit; [reflexivity | ].
  simpl in Hfit. apply andb_true_iff in Hfit as [Hitem Hrest].
  simpl. rewrite (validate_item_spec item Hitem), (IH Hrest). simpl.
  unfold retained_items. simpl. destruct (retained item); reflexivity.
Qed.

Lemma retained_is_item (item kept : pyval) :
  retained item = Some kept -> receipt_item kept.
Proof.
  unfold retained. intros Hkept.
  destruct item as [ | | | | | | e]; try discriminate.
  destruct (dict_lookup «"name"» e) as [name | ]; [ | discriminate].
  destruct (dict_lookup «"price"» e) as [price | ]; [ | discriminate].
  destruct (py_float price) as [p | ]; [ | discriminate].
  injection Hkept as <-. exists (py_str name), p. reflexivity.
Qed.

Lemma retained_items_typed (items : list pyval) :
  Forall receipt_item (retained_items items).
Proof.
  unfold retained_items.
  induction items as [ | item rest IH]; simpl; [constructor | ].
  destruct (retained item) as [kept | ] eqn:Hkept; [ | exact IH].
  constructor; [exact (retained_is_item item kept Hkept) | exact IH].
Qed.

Lemma total_or_dropped_typed (v : pyval) : optional_float (total_or_dropped v).
Proof.
  unfold total_or_dropped. destruct (py_float v) as [t | ].
  - right. exists t. reflexivity.
  - left. reflexivity.
Qed.

Lemma confidence_or_default_typed (o : option pyval) :
  unit_float (confidence_or_default o).
Proof.
  unfold confidence_or_default.
  assert (Hzero : unit_float (PyFloat float_zero))
    by (exists float_zero; repeat split).
  destruct o as [v | ]; [ | exact Hzero].
  destruct (py_float v); [apply clamp_unit | exact Hzero].
Qed.

(** What the body computes on an object. *)
Lemma parse_body_object (response_text : pystr) (d : list (pystr * pyval)) :
  json_loads (strip_fences response_text) = Ok (PyDict d) ->
  dict_lookup «"confidence"» d <> Some PyNone ->
  within_float_range d = true ->
  parse_body response_text =
    Ok {| r_date := field d «"date"»;
          r_store := field d «"store"»;
          r_items := PyList (retained_items (items_of d));
          r_total := total_or_dropped (field d «"total"»);
          r_category := field d «"category"»;
          r_confidence := confidence_or_default (dict_lookup «"confidence"» d);
          r_rawText :=
            match dict_lookup «"rawText"» d with
            | Some v => v
            | None => PyStr []
            end |}.
Proof.
  intros Hloads Hconf Hrange.
  unfold within_float_range in Hrange.
  apply andb_true_iff in Hrange as [Hrange Hitems].
  apply andb_true_iff in Hrange as [Htotal Hconfidence].
  apply negb_true_iff in Htotal, Hconfidence.
  unfold parse_body. rewrite Hloads. cbn [bind py_get].
  fold (field d «"total"»). rewrite (coerce_total_spec _ Htotal). cbn [bind].
  assert (Hc : coerce_confidence
                 match dict_lookup «"confidence"» d with
                 | Some v => v
                 | None => PyFloat float_zero
                 end
               = Ok (confidence_or_default (dict_lookup «"confidence"» d))).
  { unfold field in Hconfidence.
    destruct (dict_lookup «"confidence"» d) as [v | ]; [ | reflexivity].
    apply coerce_confidence_spec; congruence. }
  rewrite Hc. cbn [bind].
  assert (Hi : match
                 match dict_lookup «"items"» d with
                 | Some v => v
                 | None => PyList []
                 end
               with
               | PyList l => l
               | _ => []
               end = items_of d).
  { unfold items_of. destruct (dict_lookup «"items"» d) as [[ | | | | | | ] | ];
      reflexivity. }
  rewrite Hi, (validate_items_spec _ Hitems). reflexivity.
Qed.

End SanitizerFacts.

(** C1 (amended).  For every response text that, trimmed and with its fences
    stripped, parses as a JSON object whose confidence is not an explicit
    null and whose integers among total, confidence and prices are within
    the range of [float], [parse_ocr_response] returns, without raising, a
    result in which confidence is a float in [0.0, 1.0], total is absent or
    a float, and every retained item is a mapping of a string name and a
    float price.  No sign is checked: total and prices may be negative.  A
    total whose coercion fails is dropped, a confidence whose coercion fails
    is 0.0, and an item whose price fails is discarded alone. *)
Theorem parse_ocr_response_well_typed `{PyLib}
    (response_text : pystr) (d : list (pystr * pyval)) :
  json_loads (strip_fences response_text) = Ok (PyDict d) ->
  dict_lookup «"confidence"» d <> Some PyNone ->
  within_float_range d = true ->
  exists r,
    parse_ocr_response response_text = Ok r
    /\ unit_float (r_confidence r)
    /\ optional_float (r_total r)
    /\ (exists l, r_items r = PyList l /\ Forall receipt_item l)
    /\ r_total r = total_or_dropped (field d «"total"»)
    /\ r_confidence r = confidence_or_default (dict_lookup «"confidence"» d)
    /\ r_items r = PyList (retained_items (items_of d)).
Proof.
  intros Hloads Hconf Hrange.
  eexists. unfold parse_ocr_response.
  rewrite (parse_body_object response_text d Hloads Hconf Hrange).
  split; [reflexivity | ]. cbn [r_confidence r_total r_items].
  split; [apply confidence_or_default_typed | ].
  split; [apply total_or_dropped_typed | ].
  split; [ | repeat split].
  exists (retained_items (items_of d)).
  split; [reflexivity | apply retained_items_typed].
Qed.

Lemma parse_ocr_response_well_typed_witness :
  exists r,
    parse_ocr_response (H := Sample.lib) Sample.text_sloppy = Ok r
    /\ r_confidence r = PyFloat float_one
    /\ r_total r = PyNone
    /\ r_items r = PyList [PyDict [(«"name"», PyStr «"Latte"»);
                                   («"price"», PyFloat Sample.four_and_a_half)]].
Proof.
  destruct (parse_ocr_response_well_typed (H := Sample.lib) Sample.text_sloppy
              [(«"total"», PyStr «"abc"»);
               («"confidence"», PyFloat Sample.one_and_a_half);
               («"items"»,
                PyList [PyDict [(«"name"», PyStr «"Latte"»);
                                («"price"», PyFloat Sample.four_and_a_half)];
                        PyDict [(«"name"», PyStr «"Tea"»); («"price"», PyNone)];
                        PyInt 7])])
    as (r & Hr & _ & _ & _ & Htotal & Hconfidence & Hitems).
  - vm_compute. reflexivity.
  - vm_compute. discriminate.
  - vm_compute. reflexivity.
  - exists r. repeat split; [exact Hr | | | ].
    + rewrite Hconfidence. vm_compute. reflexivity.
    + rewrite Htotal. vm_compute. reflexivity.
    + rewrite Hitems. vm_compute. reflexivity.
Defined.

(** C1, as stated, fails on [{"total": -5}]: the text parses as an object,
    and the total of the result is the negative float -5.0. *)
Lemma negative_total_not_strict :
  json_loads (PyLib := Sample.lib) (strip_fences Sample.text_negative_total)
    = Ok (PyDict [(«"total"», PyInt (-5))])
  /\ parse_ocr_response (H := Sample.lib) Sample.text_negative_total
     = Ok {| r_date := PyNone; r_store := PyNone; r_items := PyList [];
             r_total := PyFloat Sample.minus_five; r_category := PyNone;
             r_confidence := PyFloat float_zero; r_rawText := PyStr [] |}
  /\ flt Sample.minus_five float_zero = true
  /\ ~ sanitizes_strictly (H := Sample.lib) Sample.text_negative_total.
Proof.
  assert (Hloads :
    json_loads (PyLib := Sample.lib) (strip_fences Sample.text_negative_total)
    = Ok (PyDict [(«"total"», PyInt (-5))])) by (vm_compute; reflexivity).
  split; [exact Hloads | ].
  split; [vm_compute; reflexivity | ].
  split; [vm_compute; reflexivity | ].
  intros Hstrict.
  destruct (Hstrict _ Hloads) as (r & Hr & _ & Htotal & _).
  vm_compute in Hr. injection Hr as <-.
  destruct Htotal as [Hnone | (t & Ht & Hle)]; [discriminate | ].
  cbn [r_total] in Ht. injection Ht as <-.
  vm_compute in Hle. discriminate.
Qed.

(** C5.  [parse_ocr_response] fails with [ValueError], the source's
    UnparseableResponse, and returns no result, for every text that after
    fence stripping is not valid JSON ([json.loads] raises), and for every
    text that is valid JSON but not an object. *)
Theorem parse_ocr_response_unparseable `{PyLib} (response_text : pystr) :
  (exists e, json_loads (strip_fences response_text) = Raise e)
  \/ (exists v, json_loads (strip_fences response_text) = Ok v
                /\ forall d, v <> PyDict d) ->
  exists msg, parse_ocr_response response_text = Raise (ValueError msg).
Proof.
  intros [(e & Hraise) | (v & Hloads & Hshape)];
    unfold parse_ocr_response, parse_body.
  - rewrite Hraise. cbn [bind]. destruct e; eexists; reflexivity.
  - rewrite Hloads. cbn [bind].
    destruct v as [ | b | z | f | s | l | d];
      try (eexists; reflexivity).
    exfalso. exact (Hshape d eq_refl).
Qed.

Lemma parse_ocr_response_unparseable_witness :
  (exists msg, parse_ocr_response (H := Sample.lib) Sample.text_not_json
               = Raise (ValueError msg))
  /\ (exists msg, parse_ocr_response (H := Sample.lib) Sample.text_array
                  = Raise (ValueError msg)).
Proof.
  split.
  - apply (parse_ocr_response_unparseable (H := Sample.lib) Sample.text_not_json).
    left. eexists. vm_compute. reflexivity.
  - apply (parse_ocr_response_unparseable (H := Sample.lib) Sample.text_array).
    right. exists (PyList [PyInt 1; PyInt 2]).
    split; [vm_compute; reflexivity | discriminate].
Defined.

(** ** The retry loop *)

Lemma emit_extend (w : world) (ev : event) : emit w ev = extend w [ev].
Proof. reflexivity. Qed.

Lemma extend_extend (w : world) (a b : list event) :
  extend (extend w a) b = extend w (a ++ b).
Proof. unfold extend. simpl. rewrite <- app_assoc. reflexivity. Qed.

Lemma extend_nil (w : world) : extend w [] = w.
Proof. destruct w. unfold extend. simpl. rewrite app_nil_r. reflexivity. Qed.

Lemma attempts_range_snoc (n : Z) :
  1 <= n -> attempts_range n = attempts_range (n - 1) ++ [n].
Proof.
  intros Hn. unfold attempts_range.
  replace (Z.to_nat n) with (S (Z.to_nat (n - 1))) by lia.
  rewrite seq_S, map_app. simpl. do 3 f_equal. lia.
Qed.

Lemma attempts_range_split (n m : Z) :
  1 <= n <= m ->
  attempts_range m
  = attempts_range (n - 1) ++ n :: map Z.of_nat (seq (S (Z.to_nat n)) (Z.to_nat (m - n))).
Proof.
  intros Hn. unfold attempts_range.
  replace (Z.to_nat m) with (Z.to_nat (n - 1) + S (Z.to_nat (m - n)))%nat by lia.
  rewrite seq_app, map_app. f_equal. simpl. f_equal; [lia | ].
  do 2 f_equal. lia.
Qed.

Lemma calls_backed_off (l : list Z) (tail : list event) :
  calls (flat_map backed_off l ++ tail) = l ++ calls tail.
Proof.
  induction l as [ | n l IH]; [reflexivity | ].
  simpl. unfold calls in *. simpl. f_equal. exact IH.
Qed.

Lemma sleeps_backed_off (l : list Z) (tail : list event) :
  sleeps (flat_map backed_off l ++ tail)
  = map (fun n => n * 2) l ++ sleeps tail.
Proof.
  induction l as [ | n l IH]; [reflexivity | ].
  simpl. unfold sleeps in *. simpl. f_equal. exact IH.
Qed.

Section RetryFacts.
Context `{PyLib}.
Variable settings : Settings.
Variable vision : Z -> api_outcome.
Variables max_retries timeout : Z.

Lemma handle_transient (e : exn) :
  transient e = true ->
  handle_error timeout e = Retry (transient_message timeout e).
Proof. destruct e; simpl; intros Ht; try discriminate; reflexivity. Qed.

(** [parse_ocr_response] raises nothing but [ValueError]. *)
Lemma parse_raises_ValueError (text : pystr) (e : exn) :
  parse_ocr_response text = Raise e -> exists msg, e = ValueError msg.
Proof.
  unfold parse_ocr_response.
  destruct (parse_body text) as [r | ex]; [discriminate | ].
  destruct ex; intros Hr; injection Hr as <-; eexists; reflexivity.
Qed.

(** A run of attempts that are all retried, none of them the last
    allowed: the loop goes through them, each with its backoff. *)
Lemma retry_loop_backs_off (len : nat) :
  forall (a : nat) (rest : list Z) (last_error : option pystr) (w : world),
    (forall i : nat, (a <= i < a + len)%nat ->
       exists e msg, vision (Z.of_nat i) = ApiRaise e
                     /\ handle_error timeout e = Retry msg) ->
    Z.of_nat (a + len) <= max_retries ->
    retry_loop vision max_retries timeout
      (map Z.of_nat (seq a len) ++ rest) last_error w
    = retry_loop vision max_retries timeout rest
        (match len with
         | O => last_error
         | S _ => left_by vision timeout (Z.of_nat (a + len - 1))
         end)
        (extend w (flat_map backed_off (map Z.of_nat (seq a len)))).
Proof.
  induction len as [ | len IH]; intros a rest last_error w Hretry Hmax.
  - simpl. rewrite extend_nil. reflexivity.
  - destruct (Hretry a ltac:(lia)) as (e & msg & Hcall & Hhandle).
    cbn [seq map app retry_loop]. unfold attempt_body.
    rewrite Hcall, Hhandle.
    replace (Z.of_nat a <? max_retries) with true
      by (symmetry; apply Z.ltb_lt; lia).
    rewrite (IH (S a) rest (Some msg)); [ | intros i Hi; apply Hretry; lia | lia].
    rewrite !emit_extend, !extend_extend. cbn [flat_map backed_off app].
    f_equal. destruct len as [ | len'].
    + unfold left_by. replace (a + 1 - 1)%nat with a by lia.
      rewrite Hcall, Hhandle. reflexivity.
    + f_equal. f_equal. lia.
Qed.

(** One attempt that ends the loop. *)
Lemma retry_loop_stops (n : Z) (rest : list Z) (last_error : option pystr)
    (w : world) (outcome : result ocr_result) :
  attempt_body vision n = outcome ->
  match outcome with
  | Ok _ => True
  | Raise e => exists e', handle_error timeout e = Fatal e'
  end ->
  retry_loop vision max_retries timeout (n :: rest) last_error w
  = (extend w [EvCall n],
     match outcome with
     | Ok r => Ok r
     | Raise e =>
       match handle_error timeout e with
       | Fatal e' => Raise e'
       | Retry _ => Raise e
       end
     end).
Proof.
  intros Hbody Hfatal. cbn [retry_loop]. rewrite Hbody, emit_extend.
  destruct outcome as [r | e]; [reflexivity | ].
  destruct Hfatal as (e' & ->). reflexivity.
Qed.

(** Everything before the loop leaves the events and the files alone. *)
Lemma prepare_world (w w0 : world) (image_path : pystr)
    (r : result (pystr * list Byte.byte)) :
  prepare settings w image_path = (w0, r) ->
  trace w0 = trace w /\ fs w0 = fs w /\ undeletable w0 = undeletable w.
Proof.
  unfold prepare, get_openai_client.
  destruct (client w);
    [ | destruct (negb (opt_truthy (openai_api_key settings)))];
    repeat match goal with
           | |- context [if ?b then _ else _] => destruct b
           | |- context [match encode_image ?a ?b with _ => _ end] =>
             destruct (encode_image a b)
           end;
    intros Heq; injection Heq as <- _; repeat split.
Qed.

Lemma process_after_prepare (w w0 : world) (image_path : pystr)
    (req : pystr * list Byte.byte) :
  prepare settings w image_path = (w0, Ok req) ->
  process_receipt_image settings vision w image_path max_retries timeout
  = retry_loop vision max_retries timeout (attempts_range max_retries) None w0.
Proof. intros Hprep. unfold process_receipt_image. rewrite Hprep. reflexivity. Qed.

(** Every attempt fails with a retryable error. *)
Lemma retry_loop_exhausted (errs : Z -> exn) (w : world) :
  1 <= max_retries ->
  (forall n, 1 <= n <= max_retries ->
     vision n = ApiRaise (errs n) /\ transient (errs n) = true) ->
  retry_loop vision max_retries timeout (attempts_range max_retries) None w
  = (extend w (exhausted_trace max_retries),
     Raise (ValueError («"OCR 처리에 실패했습니다: "»
                        ++ transient_message timeout (errs max_retries)))).
Proof.
  intros Hmax Hall.
  rewrite (attempts_range_snoc max_retries Hmax). unfold attempts_range at 1.
  rewrite retry_loop_backs_off.
  - destruct (Hall max_retries ltac:(lia)) as (Hcall & Htransient).
    cbn [retry_loop]. unfold attempt_body.
    rewrite Hcall, (handle_transient _ Htransient), Z.ltb_irrefl.
    rewrite emit_extend, extend_extend. reflexivity.
  - intros i Hi. destruct (Hall (Z.of_nat i) ltac:(lia)) as (Hcall & Htransient).
    exists (errs (Z.of_nat i)), (transient_message timeout (errs (Z.of_nat i))).
    split; [exact Hcall | exact (handle_transient _ Htransient)].
  - lia.
Qed.

(** Attempts 1 to [n - 1] are retried and attempt [n] ends the loop. *)
Lemma retry_loop_reaches (n : Z) (w : world) (outcome : result ocr_result) :
  1 <= n <= max_retries ->
  (forall k, 1 <= k < n ->
     exists e msg, vision k = ApiRaise e /\ handle_error timeout e = Retry msg) ->
  attempt_body vision n = outcome ->
  match outcome with
  | Ok _ => True
  | Raise e => exists e', handle_error timeout e = Fatal e'
  end ->
  retry_loop vision max_retries timeout (attempts_range max_retries) None w
  = (extend w (flat_map backed_off (attempts_range (n - 1)) ++ [EvCall n]),
     match outcome with
     | Ok r => Ok r
     | Raise e =>
       match handle_error timeout e with
       | Fatal e' => Raise e'
       | Retry _ => Raise e
       end
     end).
Proof.
  intros Hn Hbefore Hbody Hfatal.
  rewrite (attempts_range_split n max_retries Hn). unfold attempts_range at 1.
  rewrite retry_loop_backs_off.
  - rewrite (retry_loop_stops n _ _ _ outcome Hbody Hfatal).
    rewrite extend_extend. reflexivity.
  - intros i Hi. apply Hbefore. lia.
  - lia.
Qed.

End RetryFacts.

(** C2.  When every attempt of [process_receipt_image] raises a retryable
    error (the per-call timeout, or an API connection or transport error),
    exactly [max_retries] requests are made, attempt [n] is followed by a
    sleep of [n * 2] seconds for every [n < max_retries], and the run fails
    with the message of the last retryable error.  When the first attempt
    raises a remote API error or gets an unparseable response, one request is
    made, no sleep occurs and the failure is raised at once; when the API key
    is missing, the failure is raised before any request. *)
Theorem retry_policy `{PyLib} (settings : Settings) (vision : Z -> api_outcome)
    (w : world) (image_path : pystr) (max_retries timeout : Z) :
  let run :=
    process_receipt_image settings vision w image_path max_retries timeout in
  (forall w0 req (errs : Z -> exn),
     prepare settings w image_path = (w0, Ok req) ->
     1 <= max_retries ->
     (forall n, 1 <= n <= max_retries ->
        vision n = ApiRaise (errs n) /\ transient (errs n) = true) ->
     snd run = Raise (ValueError
                        («"OCR 처리에 실패했습니다: "»
                         ++ transient_message timeout (errs max_retries)))
     /\ trace (fst run) = trace w ++ exhausted_trace max_retries
     /\ calls (exhausted_trace max_retries) = attempts_range max_retries
     /\ sleeps (exhausted_trace max_retries)
        = map (fun n => n * 2) (attempts_range (max_retries - 1)))
  /\ (forall w0 req msg,
        prepare settings w image_path = (w0, Ok req) ->
        1 <= max_retries ->
        vision 1 = ApiRaise (APIError msg) ->
        snd run = Raise (ValueError («"OpenAI API 호출 실패: "» ++ msg))
        /\ trace (fst run) = trace w ++ [EvCall 1])
  /\ (forall w0 req text e,
        prepare settings w image_path = (w0, Ok req) ->
        1 <= max_retries ->
        vision 1 = ApiContent (Some text) ->
        Str.truthy text = true ->
        parse_ocr_response text = Raise e ->
        snd run = Raise e /\ trace (fst run) = trace w ++ [EvCall 1])
  /\ (client w = false ->
      opt_truthy (openai_api_key settings) = false ->
      (exists msg, snd run = Raise (ValueError msg)) /\ fst run = w).
Proof.
  intros run. subst run. split; [ | split; [ | split]].
  - intros w0 req errs Hprep Hmax Hall.
    rewrite (process_after_prepare _ _ _ _ _ _ _ _ Hprep).
    rewrite (retry_loop_exhausted _ _ _ errs w0 Hmax Hall).
    cbn [fst snd extend trace].
    destruct (prepare_world _ _ _ _ _ Hprep) as (-> & _).
    split; [reflexivity | split; [reflexivity | ]].
    unfold exhausted_trace. rewrite calls_backed_off, sleeps_backed_off.
    split; [symmetry; apply attempts_range_snoc; exact Hmax | apply app_nil_r].
  - intros w0 req msg Hprep Hmax Hcall.
    rewrite (process_after_prepare _ _ _ _ _ _ _ _ Hprep).
    rewrite (retry_loop_reaches vision max_retries timeout 1 w0
               (Raise (APIError msg))).
    + cbn [fst snd extend trace].
      destruct (prepare_world _ _ _ _ _ Hprep) as (-> & _).
      split; reflexivity.
    + lia.
    + intros k Hk. lia.
    + unfold attempt_body. rewrite Hcall. reflexivity.
    + eexists. reflexivity.
  - intros w0 req text e Hprep Hmax Hcall Htext Hparse.
    destruct (parse_raises_ValueError text e Hparse) as (msg & ->).
    rewrite (process_after_prepare _ _ _ _ _ _ _ _ Hprep).
    rewrite (retry_loop_reaches vision max_retries timeout 1 w0
               (Raise (ValueError msg))).
    + cbn [fst snd extend trace].
      destruct (prepare_world _ _ _ _ _ Hprep) as (-> & _).
      split; reflexivity.
    + lia.
    + intros k Hk. lia.
    + unfold attempt_body. rewrite Hcall, Htext. exact Hparse.
    + eexists. reflexivity.
  - intros Hclient Hkey.
    unfold process_receipt_image, prepare, get_openai_client.
    rewrite Hclient, Hkey. split; [eexists | ]; reflexivity.
Qed.

Lemma retry_policy_witness :
  (snd (process_receipt_image (H := Sample.lib) Run.settings Run.down
          Run.stored Run.relative_path 3 30)
   = Raise (ValueError «"OCR 처리에 실패했습니다: API 연결 오류: Connection error."»)
   /\ trace (fst (process_receipt_image (H := Sample.lib) Run.settings Run.down
                    Run.stored Run.relative_path 3 30))
      = [EvCall 1; EvSleep 2; EvCall 2; EvSleep 4; EvCall 3])
  /\ (snd (process_receipt_image (H := Sample.lib) Run.settings Run.rejected
             Run.stored Run.relative_path 3 30)
      = Raise (ValueError «"OpenAI API 호출 실패: Error code: 401"»)
      /\ trace (fst (process_receipt_image (H := Sample.lib) Run.settings
                       Run.rejected Run.stored Run.relative_path 3 30))
         = [EvCall 1])
  /\ trace (fst (process_receipt_image (H := Sample.lib) Run.settings
                   Run.chatty Run.stored Run.relative_path 3 30))
     = [EvCall 1]
  /\ fst (process_receipt_image (H := Sample.lib) Run.no_key Run.down
            Run.stored Run.relative_path 3 30)
     = Run.stored.
Proof.
  assert (Hprep : prepare (H := Sample.lib) Run.settings Run.stored
                    Run.relative_path
                  = (set_client Run.stored true, Ok («"image/jpeg"», Run.jpeg)))
    by (vm_compute; reflexivity).
  split; [ | split; [ | split]].
  - destruct (retry_policy (H := Sample.lib) Run.settings Run.down Run.stored
                Run.relative_path 3 30) as (Hexhausted & _).
    destruct (Hexhausted _ _ (fun _ => APIConnectionError «"Connection error."»)
                Hprep ltac:(lia))
      as (Hresult & Htrace & _).
    + intros n Hn. split; reflexivity.
    + split; [exact Hresult | exact Htrace].
  - destruct (retry_policy (H := Sample.lib) Run.settings Run.rejected
                Run.stored Run.relative_path 3 30) as (_ & Hfatal & _).
    exact (Hfatal _ _ «"Error code: 401"» Hprep ltac:(lia) eq_refl).
  - destruct (retry_policy (H := Sample.lib) Run.settings Run.chatty
                Run.stored Run.relative_path 3 30) as (_ & _ & Hparse & _).
    destruct (Hparse _ _ Sample.text_not_json
                (ValueError («"OCR 응답을 파싱할 수 없습니다: "»
                             ++ «"Expecting value: line 1 column 1 (char 0)"»))
                Hprep ltac:(lia) eq_refl)
      as (_ & Htrace).
    + vm_compute. reflexivity.
    + vm_compute. reflexivity.
    + exact Htrace.
  - destruct (retry_policy (H := Sample.lib) Run.no_key Run.down Run.stored
                Run.relative_path 3 30) as (_ & _ & _ & Hkey).
    destruct (Hkey eq_refl eq_refl) as (_ & Hworld). exact Hworld.
Defined.

(** C7.  When the first attempt raises a retryable error and the second
    succeeds with a parseable response, [process_receipt_image] returns the
    sanitized result of the second response; exactly one backoff, of 2
    seconds, elapses, and no third attempt is made. *)
Theorem retry_then_success `{PyLib} (settings : Settings)
    (vision : Z -> api_outcome) (w w0 : world) (image_path : pystr)
    (req : pystr * list Byte.byte) (max_retries timeout : Z)
    (e : exn) (text : pystr) (r : ocr_result) :
  prepare settings w image_path = (w0, Ok req) ->
  2 <= max_retries ->
  vision 1 = ApiRaise e ->
  transient e = true ->
  vision 2 = ApiContent (Some text) ->
  Str.truthy text = true ->
  parse_ocr_response text = Ok r ->
  let run :=
    process_receipt_image settings vision w image_path max_retries timeout in
  snd run = Ok r
  /\ trace (fst run) = trace w ++ [EvCall 1; EvSleep 2; EvCall 2].
Proof.
  intros Hprep Hmax Hfirst Htransient Hsecond Htext Hparse run. subst run.
  rewrite (process_after_prepare _ _ _ _ _ _ _ _ Hprep).
  rewrite (retry_loop_reaches vision max_retries timeout 2 w0 (Ok r)).
  - cbn [fst snd extend trace].
    destruct (prepare_world _ _ _ _ _ Hprep) as (-> & _).
    split; reflexivity.
  - lia.
  - intros k Hk. assert (k = 1) as -> by lia.
    exists e, (transient_message timeout e).
    split; [exact Hfirst | exact (handle_transient timeout e Htransient)].
  - unfold attempt_body. rewrite Hsecond, Htext. exact Hparse.
  - exact I.
Qed.

Lemma retry_then_success_witness :
  exists r,
    parse_ocr_response (H := Sample.lib) Sample.text_sloppy = Ok r
    /\ snd (process_receipt_image (H := Sample.lib) Run.settings Run.slow_start
              Run.stored Run.relative_path 3 30) = Ok r
    /\ trace (fst (process_receipt_image (H := Sample.lib) Run.settings
                     Run.slow_start Run.stored Run.relative_path 3 30))
       = [EvCall 1; EvSleep 2; EvCall 2].
Proof.
  destruct (parse_ocr_response (H := Sample.lib) Sample.text_sloppy)
    as [r | ex] eqn:Hparse; [ | vm_compute in Hparse; discriminate].
  exists r. split; [reflexivity | ].
  apply (retry_then_success (H := Sample.lib) Run.settings Run.slow_start
           Run.stored (set_client Run.stored true) Run.relative_path
           («"image/jpeg"», Run.jpeg) 3 30 AsyncioTimeoutError
           Sample.text_sloppy r).
  - vm_compute. reflexivity.
  - lia.
  - reflexivity.
  - reflexivity.
  - reflexivity.
  - vm_compute. reflexivity.
  - exact Hparse.
Defined.

(** C9.  When the vision model returns an empty or missing message content
    on attempt [n], [process_receipt_image] fails at once with the
    empty-response [ValueError]: the request of attempt [n] is the last
    event of the run, so no backoff follows it and no further attempt is
    made, however many remain. *)
Theorem empty_content_is_fatal `{PyLib} (settings : Settings)
    (vision : Z -> api_outcome) (w w0 : world) (image_path : pystr)
    (req : pystr * list Byte.byte) (max_retries timeout n : Z) :
  prepare settings w image_path = (w0, Ok req) ->
  1 <= n <= max_retries ->
  (forall k, 1 <= k < n ->
     exists e msg, vision k = ApiRaise e /\ handle_error timeout e = Retry msg) ->
  vision n = ApiContent None \/ vision n = ApiContent (Some []) ->
  let run :=
    process_receipt_image settings vision w image_path max_retries timeout in
  snd run = Raise (ValueError «"OpenAI API가 빈 응답을 반환했습니다."»)
  /\ trace (fst run)
     = trace w ++ flat_map backed_off (attempts_range (n - 1)) ++ [EvCall n].
Proof.
  intros Hprep Hn Hbefore Hempty run. subst run.
  rewrite (process_after_prepare _ _ _ _ _ _ _ _ Hprep).
  rewrite (retry_loop_reaches vision max_retries timeout n w0
             (Raise (ValueError «"OpenAI API가 빈 응답을 반환했습니다."»))
             Hn Hbefore).
  - cbn [fst snd extend trace].
    destruct (prepare_world _ _ _ _ _ Hprep) as (-> & _).
    split; reflexivity.
  - unfold attempt_body. destruct Hempty as [-> | ->]; reflexivity.
  - eexists. reflexivity.
Qed.

Lemma empty_content_is_fatal_witness :
  snd (process_receipt_image (H := Sample.lib) Run.settings Run.then_empty
         Run.stored Run.relative_path 3 30)
  = Raise (ValueError «"OpenAI API가 빈 응답을 반환했습니다."»)
  /\ trace (fst (process_receipt_image (H := Sample.lib) Run.settings
                   Run.then_empty Run.stored Run.relative_path 3 30))
     = [EvCall 1; EvSleep 2; EvCall 2].
Proof.
  apply (empty_content_is_fatal (H := Sample.lib) Run.settings Run.then_empty
           Run.stored (set_client Run.stored true) Run.relative_path
           («"image/jpeg"», Run.jpeg) 3 30 2).
  - vm_compute. reflexivity.
  - lia.
  - intros k Hk. assert (k = 1) as -> by lia.
    eexists. eexists. split; reflexivity.
  - left. reflexivity.
Defined.

(** ** The file service *)

Lemma truthy_app (a b : pystr) :
  Str.truthy b = true -> Str.truthy (a ++ b) = true.
Proof. destruct a; [trivial | reflexivity]. Qed.

Lemma truthy_path_join (a b : pystr) :
  Str.truthy b = true -> Str.truthy (Os.path_join a b) = true.
Proof.
  intros Hb. unfold Os.path_join.
  destruct (Str.startswith b «"/"»); [exact Hb | ].
  destruct (negb (Str.truthy a) || Str.endswith a «"/"»);
    repeat apply truthy_app; exact Hb.
Qed.

Lemma remove_spec (w : world) (p : pystr) :
  Os.remove w p =
  match fs w !! p with
  | Some (File _) =>
    if decide (p ∈ undeletable w)
    then (w, Raise (OSError «"[Errno 13] Permission denied"»))
    else (set_fs w (delete p (fs w)), Ok tt)
  | Some Dir => (w, Raise (OSError «"[Errno 21] Is a directory"»))
  | None => (w, Raise (OSError «"[Errno 2] No such file or directory"»))
  end.
Proof. reflexivity. Qed.

Lemma write_file_stores (w w' : world) (p : pystr) (content : list Byte.byte) :
  Os.write_file w p content = (w', Ok tt) ->
  fs w' !! p = Some (File content) /\ undeletable w' = undeletable w.
Proof.
  unfold Os.write_file.
  destruct (fs w !! p) as [[c | ] | ]; try discriminate;
    destruct (decide (p ∈ unwritable w)); try discriminate;
    intros Heq; injection Heq as <-; simpl;
    (split; [apply lookup_insert_eq | reflexivity]).
Qed.

Lemma makedirs_undeletable (w w' : world) (d : pystr) (r : result unit) :
  Os.makedirs w d = (w', r) -> undeletable w' = undeletable w.
Proof.
  unfold Os.makedirs.
  destruct (fs w !! d) as [[c | ] | ];
    [ | | destruct (decide (d ∈ unwritable w))];
    intros Heq; injection Heq as <- _; reflexivity.
Qed.

Section FileFacts.
Context `{PyLib}.
Variable settings : Settings.

Lemma get_storage_path_spec (w w' : world) (name full relative : pystr) :
  get_storage_path settings w name = (w', Ok (full, relative)) ->
  full = Os.path_join (upload_dir settings) relative
  /\ (Str.truthy name = true -> Str.truthy relative = true)
  /\ undeletable w' = undeletable w.
Proof.
  unfold get_storage_path.
  destruct (Os.makedirs w _) as [w2 [u | e]] eqn:Hmk; [ | discriminate].
  intros Heq. injection Heq as <- <- <-.
  split; [reflexivity | ].
  split; [apply truthy_path_join | exact (makedirs_undeletable _ _ _ _ Hmk)].
Qed.

(** A successful save leaves a regular file where [delete_file] and
    [get_file_path] will look for it. *)
Lemma save_uploaded_file_stores (w w1 : world) (file : UploadFile)
    (path : pystr) :
  save_uploaded_file settings w file = (w1, Ok path) ->
  Str.truthy path = true
  /\ fs w1 !! Os.path_join (upload_dir settings) path = Some (File (body file))
  /\ undeletable w1 = undeletable w.
Proof.
  unfold save_uploaded_file.
  destruct (save_body settings w file) as [w2 [p | e]] eqn:Hbody;
    [ | destruct e; discriminate].
  intros Heq. injection Heq as <- <-.
  unfold save_body in Hbody.
  destruct (validate_file file); [ | discriminate].
  destruct (_ >? _); [discriminate | ].
  destruct (_ =? 0); [discriminate | ].
  destruct (filename file) as [original | ]; [ | discriminate].
  destruct (get_storage_path settings w _) as [w3 [[full relative] | e]] eqn:Hpath;
    [ | discriminate].
  destruct (Os.write_file w3 full (body file)) as [w4 [[] | e]] eqn:Hwrite;
    [ | discriminate].
  injection Hbody as <- <-.
  destruct (get_storage_path_spec _ _ _ _ _ Hpath) as (-> & Htruthy & Hund).
  destruct (write_file_stores _ _ _ _ Hwrite) as (Hfile & Hund').
  split; [apply Htruthy; reflexivity | ].
  split; [exact Hfile | congruence].
Qed.

(** [delete_file] on a regular file. *)
Lemma delete_file_existing (w : world) (file_path : pystr)
    (content : list Byte.byte) :
  let full := Os.path_join (upload_dir settings) file_path in
  fs w !! full = Some (File content) ->
  delete_file settings w file_path =
    if decide (full ∈ undeletable w) then (w, Ok false)
    else (set_fs w (delete full (fs w)), Ok true).
Proof.
  intros full Hfile. unfold delete_file, delete_body, Os.exists_.
  fold full. rewrite remove_spec, Hfile. cbn [negb].
  destruct (decide (full ∈ undeletable w)); reflexivity.
Qed.

End FileFacts.

(** C10.  [delete_file] is total: on every path it returns a boolean and
    raises nothing.  It returns [False] when the target does not exist or
    the removal fails, leaving the files as they were, and [True] exactly
    when the target existed and was removed, after which it is gone. *)
Theorem delete_file_total (settings : Settings) (w : world) (file_path : pystr) :
  let full := Os.path_join (upload_dir settings) file_path in
  let out := delete_file settings w file_path in
  exists b,
    snd out = Ok b
    /\ (b = true <-> Os.exists_ w full = true /\ snd (Os.remove w full) = Ok tt)
    /\ (b = true -> fs (fst out) !! full = None)
    /\ (b = false -> fst out = w).
Proof.
  intros full out. subst out.
  unfold delete_file, delete_body, Os.exists_. fold full. rewrite remove_spec.
  destruct (fs w !! full) as [[content | ] | ]; cbn [negb].
  - destruct (decide (full ∈ undeletable w)).
    + exists false. cbn [fst snd].
      repeat split; try discriminate. intros (_ & Habs). discriminate.
    + exists true. cbn [fst snd set_fs fs].
      repeat split; try discriminate. intros _. apply lookup_delete_eq.
  - exists false. cbn [fst snd].
    repeat split; try discriminate. intros (_ & Habs). discriminate.
  - exists false. cbn [fst snd].
    repeat split; try discriminate. intros (Habs & _). discriminate.
Qed.

Lemma delete_file_total_witness :
  snd (delete_file Run.settings Run.stored Run.relative_path) = Ok true
  /\ fs (fst (delete_file Run.settings Run.stored Run.relative_path))
       !! Os.path_join (upload_dir Run.settings) Run.relative_path = None
  /\ snd (delete_file Run.settings Run.fresh Run.relative_path) = Ok false.
Proof.
  destruct (delete_file_total Run.settings Run.stored Run.relative_path)
    as (b & Hb & Hiff & Hgone & _).
  destruct (delete_file_total Run.settings Run.fresh Run.relative_path)
    as (b' & Hb' & Hiff' & _).
  assert (Htrue : b = true).
  { apply Hiff. split; vm_compute; reflexivity. }
  assert (Hfalse : b' = false).
  { destruct b'; [ | reflexivity].
    destruct Hiff' as (Hexists & _). destruct (Hexists eq_refl) as (Habs & _).
    vm_compute in Habs. discriminate. }
  subst b b'. split; [exact Hb | split; [exact (Hgone eq_refl) | exact Hb']].
Defined.

(** ** The upload endpoint *)

Section UploadFacts.
Context `{PyLib}.
Variable settings : Settings.
Variable vision : Z -> api_outcome.

Lemma retry_loop_files (max_retries timeout : Z) (attempts : list Z) :
  forall (last_error : option pystr) (w w' : world) (r : result ocr_result),
    retry_loop vision max_retries timeout attempts last_error w = (w', r) ->
    fs w' = fs w /\ undeletable w' = undeletable w.
Proof.
  induction attempts as [ | n rest IH]; intros last_error w w' r; cbn [retry_loop].
  - intros Heq. injection Heq as <- _. split; reflexivity.
  - destruct (attempt_body vision n) as [res | e].
    + intros Heq. injection Heq as <- _. split; reflexivity.
    + destruct (handle_error timeout e) as [msg | e'].
      * intros Hrest. apply IH in Hrest.
        destruct (n <? max_retries); exact Hrest.
      * intros Heq. injection Heq as <- _. split; reflexivity.
Qed.

Lemma process_receipt_image_files (w w' : world) (image_path : pystr)
    (max_retries timeout : Z) (r : result ocr_result) :
  process_receipt_image settings vision w image_path max_retries timeout
  = (w', r) ->
  fs w' = fs w /\ undeletable w' = undeletable w.
Proof.
  unfold process_receipt_image.
  destruct (prepare settings w image_path) as [w0 [req | e]] eqn:Hprep;
    destruct (prepare_world _ _ _ _ _ Hprep) as (_ & Hfs & Hund).
  - intros Hloop. apply retry_loop_files in Hloop as (Hfs' & Hund').
    split; congruence.
  - intros Heq. injection Heq as <- _. split; assumption.
Qed.

(** Each handler cleans up and then raises. *)
Lemma on_error_spec (w : world) (saved : option pystr) (e : exn) :
  on_error settings w saved e = (cleanup settings w saved, Raise (surfaced e)).
Proof.
  unfold on_error, surfaced.
  destruct (is_ValueError e); [reflexivity | ].
  destruct (is_HTTPException e); reflexivity.
Qed.

Lemma surfaced_is_http (e : exn) : is_HTTPException (surfaced e) = true.
Proof. destruct e; reflexivity. Qed.

(** What the endpoint does once the file is stored and a stage fails. *)
Lemma process_receipt_ocr_failure (w w1 : world) (file : UploadFile)
    (path : pystr) (original : exn) :
  save_uploaded_file settings w file = (w1, Ok path) ->
  later_stage_fails settings vision w1 path original ->
  exists w2,
    fs w2 = fs w1 /\ undeletable w2 = undeletable w1
    /\ process_receipt_ocr settings vision w file
       = (fst (delete_file settings w2 path), Raise (surfaced original)).
Proof.
  intros Hsave Hfail. unfold process_receipt_ocr. rewrite Hsave.
  destruct (save_uploaded_file_stores settings _ _ _ _ Hsave) as (Htruthy & _).
  unfold later_stage_fails in Hfail.
  destruct (process_receipt_image settings vision w1 path 3 30)
    as [w2 res] eqn:Hstage.
  destruct (process_receipt_image_files _ _ _ _ _ _ Hstage) as (Hfs & Hund).
  exists w2. split; [exact Hfs | split; [exact Hund | ]].
  cbn [snd] in Hfail.
  destruct Hfail as [-> | (r & -> & Hmodel)]; [ | rewrite Hmodel];
    rewrite on_error_spec; unfold cleanup; rewrite Htruthy; reflexivity.
Qed.

End UploadFacts.

(** C4.  When the upload endpoint has written the receipt file and a later
    stage fails (the extraction raises, or the response model refuses the
    result), the caller gets an HTTP error made from the original error, and
    by then the saved file has been deleted.  When the deletion itself
    fails, the file stays and the same error is surfaced all the same. *)
Theorem cleanup_before_error `{PyLib} (settings : Settings)
    (vision : Z -> api_outcome) (w w1 : world) (file : UploadFile)
    (path : pystr) (original : exn) :
  save_uploaded_file settings w file = (w1, Ok path) ->
  later_stage_fails settings vision w1 path original ->
  let full := Os.path_join (upload_dir settings) path in
  let out := process_receipt_ocr settings vision w file in
  snd out = Raise (surfaced original)
  /\ is_HTTPException (surfaced original) = true
  /\ (full ∉ undeletable w1 ->
      fs (fst out) = delete full (fs w1) /\ fs (fst out) !! full = None)
  /\ (full ∈ undeletable w1 -> fs (fst out) = fs w1).
Proof.
  intros Hsave Hfail full out. subst out.
  destruct (process_receipt_ocr_failure settings vision _ _ _ _ _ Hsave Hfail)
    as (w2 & Hfs & Hund & ->).
  destruct (save_uploaded_file_stores settings _ _ _ _ Hsave) as (_ & Hfile & _).
  fold full in Hfile. rewrite <- Hfs in Hfile.
  rewrite (delete_file_existing settings w2 path _ Hfile). fold full.
  cbn [snd]. split; [reflexivity | ]. split; [apply surfaced_is_http | ].
  rewrite Hund.
  destruct (decide (full ∈ undeletable w1)) as [Hin | Hout]; cbn [fst set_fs fs].
  - split; [intros Hnot; contradiction | intros _; exact Hfs].
  - split; [ | intros Hin; contradiction].
    intros _. rewrite Hfs. split; [reflexivity | apply lookup_delete_eq].
Qed.

(** ** Intake *)

Section IntakeFacts.
Context `{PyLib}.
Variable settings : Settings.

Lemma invalid_upload_reflect (file : UploadFile) :
  invalid_upload settings file <-> invalid_uploadb settings file = true.
Proof.
  unfold invalid_upload, invalid_uploadb.
  rewrite !orb_true_iff, negb_true_iff, Z.eqb_eq, Z.ltb_lt.
  assert (Hext :
    (exists name, filename file = Some name
                  /\ get_file_extension name ∉ ALLOWED_EXTENSIONS)
    <-> match filename file with
        | Some name =>
          negb (bool_decide (get_file_extension name ∈ ALLOWED_EXTENSIONS))
        | None => false
        end = true).
  { destruct (filename file) as [name | ].
    - rewrite negb_true_iff, bool_decide_eq_false. split.
      + intros (n & Hn & Hout). injection Hn as <-. exact Hout.
      + intros Hout. exists name. split; [reflexivity | exact Hout].
    - split; [intros (n & Hn & _) | intros Hn]; discriminate. }
  assert (Hmime :
    (exists ct, content_type file = Some ct /\ Str.truthy ct = true
                /\ ct ∉ ALLOWED_MIME_TYPES)
    <-> match content_type file with
        | Some ct => Str.truthy ct && negb (bool_decide (ct ∈ ALLOWED_MIME_TYPES))
        | None => false
        end = true).
  { destruct (content_type file) as [ct | ].
    - rewrite andb_true_iff, negb_true_iff, bool_decide_eq_false. split.
      + intros (c & Hc & Htruthy & Hout). injection Hc as <-. split; assumption.
      + intros (Htruthy & Hout). exists ct. repeat split; assumption.
    - split; [intros (c & Hc & _) | intros Hc]; discriminate. }
  rewrite Hext, Hmime. split.
  - intros [Hname | [He | [Hm | [Hzero | Hbig]]]]; auto.
    left. right. lia.
  - intros [[[[Hname | He] | Hm] | Hzero] | Hbig]; auto.
    right. right. right. left. lia.
Qed.

(** A rejected upload: a 400, and the world as it was. *)
Lemma save_body_invalid (w : world) (file : UploadFile) :
  invalid_uploadb settings file = true ->
  exists detail, save_body settings w file = (w, Raise (HTTPException 400 detail)).
Proof.
  unfold invalid_uploadb, save_body, validate_file. rewrite Z.gtb_ltb.
  destruct (filename file) as [name | ]; [ | intros _; eexists; reflexivity].
  cbn [opt_truthy].
  destruct (Str.truthy name); [ | intros _; eexists; reflexivity].
  destruct (bool_decide (get_file_extension name ∈ ALLOWED_EXTENSIONS));
    [ | intros _; eexists; reflexivity].
  cbn [negb orb].
  assert (Hsize :
    (Z.of_nat (length (body file)) =? 0)
    || (max_file_size settings <? Z.of_nat (length (body file))) = true ->
    exists detail,
      (if max_file_size settings <? Z.of_nat (length (body file))
       then (w, Raise (HTTPException 400
                         («"파일 크기가 너무 큽니다. 최대 크기: "»
                          ++ format_megabytes (max_file_size settings) ++ «"MB"»)))
       else if Z.of_nat (length (body file)) =? 0
       then (w, Raise (HTTPException 400 «"빈 파일은 업로드할 수 없습니다."»))
       else
         let name0 := generate_filename w name in
         match get_storage_path settings w name0 with
         | (w0, Raise e) => (w0, Raise e)
         | (w0, Ok (full_path, relative_path)) =>
           match Os.write_file w0 full_path (body file) with
           | (w1, Raise e) => (w1, Raise e)
           | (w1, Ok _) => (w1, Ok relative_path)
           end
         end)
      = (w, Raise (HTTPException 400 detail))).
  { destruct (max_file_size settings <? _); [intros _; eexists; reflexivity | ].
    destruct (_ =? 0); [intros _; eexists; reflexivity | discriminate]. }
  destruct (content_type file) as [ct | ]; [ | exact Hsize].
  destruct (Str.truthy ct); [ | exact Hsize].
  destruct (bool_decide (ct ∈ ALLOWED_MIME_TYPES)); [exact Hsize | ].
  intros _. eexists. reflexivity.
Qed.

(** An upload that passes the checks is stored, or fails in the operating
    system. *)
Lemma save_body_valid (w w' : world) (file : UploadFile) (r : result pystr) :
  invalid_uploadb settings file = false ->
  save_body settings w file = (w', r) ->
  (exists path, r = Ok path) \/ (exists msg, r = Raise (OSError msg)).
Proof.
  unfold invalid_uploadb, save_body, validate_file. rewrite Z.gtb_ltb.
  rewrite !orb_false_iff. intros ((((Hname & Hext) & Hmime) & Hzero) & Hbig).
  destruct (filename file) as [name | ]; [ | discriminate].
  cbn [opt_truthy] in Hname. apply negb_false_iff in Hname, Hext.
  rewrite Hname, Hext. cbn [negb].
  assert (Hvalid : match content_type file with
                   | Some ct =>
                     if Str.truthy ct && negb (bool_decide (ct ∈ ALLOWED_MIME_TYPES))
                     then Raise (HTTPException 400
                                   («"허용되지 않는 MIME 타입입니다: "» ++ ct))
                     else Ok tt
                   | None => Ok tt
                   end = Ok tt).
  { destruct (content_type file) as [ct | ]; [rewrite Hmime | ]; reflexivity. }
  rewrite Hvalid, Hbig, Hzero. cbv zeta. unfold get_storage_path.
  destruct (Os.makedirs w _) as [w2 [u | e]] eqn:Hmk.
  - destruct (Os.write_file w2 _ (body file)) as [w3 [u' | e]] eqn:Hwr.
    + intros Heq. injection Heq as _ <-. left. eexists. reflexivity.
    + intros Heq. injection Heq as _ <-. right. revert Hwr. unfold Os.write_file.
      destruct (fs w2 !! _) as [[c | ] | ];
        try destruct (decide (_ ∈ unwritable w2));
        intros Heq; inversion Heq; eexists; reflexivity.
  - intros Heq. injection Heq as _ <-. right. revert Hmk. unfold Os.makedirs.
    destruct (fs w !! _) as [[c | ] | ];
      try destruct (decide (_ ∈ unwritable w));
      intros Heq; inversion Heq; eexists; reflexivity.
Qed.

End IntakeFacts.

(** C6.  [save_uploaded_file] rejects with a 400, the source's InvalidFile,
    exactly when the filename is missing, or the extension is not one of
    .jpg, .jpeg, .png, .heic, .webp, or a content type is declared and is not
    in the allow-set, or the body is empty, or the body is longer than the
    configured maximum; and a rejection leaves the world as it was, so no
    file is written. *)
Theorem save_rejects_invalid `{PyLib} (settings : Settings) (w : world)
    (file : UploadFile) :
  let out := save_uploaded_file settings w file in
  (invalid_upload settings file
   <-> exists detail, snd out = Raise (HTTPException 400 detail))
  /\ (invalid_upload settings file -> fst out = w).
Proof.
  intros out. subst out. rewrite invalid_upload_reflect.
  unfold save_uploaded_file.
  destruct (invalid_uploadb settings file) eqn:Hinv.
  - destruct (save_body_invalid settings w file Hinv) as (detail & ->).
    cbn [fst snd]. split; [ | reflexivity].
    split; [intros _; exists detail; reflexivity | reflexivity].
  - destruct (save_body settings w file) as [w' r] eqn:Hbody.
    split; [ | discriminate].
    split; [discriminate | ].
    intros (detail & Hout). exfalso.
    destruct (save_body_valid settings w w' file r Hinv Hbody)
      as [(path & ->) | (msg & ->)]; cbn [snd] in Hout; discriminate.
Qed.

Lemma save_rejects_invalid_witness :
  (exists detail,
     snd (save_uploaded_file (H := Sample.lib) Run.settings Run.fresh Run.document)
     = Raise (HTTPException 400 detail))
  /\ fst (save_uploaded_file (H := Sample.lib) Run.settings Run.fresh Run.document)
     = Run.fresh.
Proof.
  destruct (save_rejects_invalid (H := Sample.lib) Run.settings Run.fresh
              Run.document) as (Hiff & Hworld).
  assert (Hinv : invalid_upload (H := Sample.lib) Run.settings Run.document).
  { right. left. exists «"notes.txt"». split; [reflexivity | ].
    apply (bool_decide_eq_false_1 _). vm_compute. reflexivity. }
  split; [apply Hiff; exact Hinv | exact (Hworld Hinv)].
Defined.


Lemma cleanup_before_error_witness :
  (let full := Os.path_join (upload_dir Run.settings) Run.relative_path in
   let out :=
     process_receipt_ocr (H := Sample.lib) Run.settings Run.down Run.fresh
       Run.photo in
   snd out = Raise (surfaced Run.exhausted)
   /\ fs (fst out) !! full = None)
  /\ (let full := Os.path_join (upload_dir Run.settings) Run.relative_path in
      let out :=
        process_receipt_ocr (H := Sample.lib) Run.settings Run.down Run.sticky
          Run.photo in
      snd out = Raise (surfaced Run.exhausted)
      /\ fs (fst out) = fs Run.saved_sticky).
Proof.
  split.
  - destruct (cleanup_before_error (H := Sample.lib) Run.settings Run.down
                Run.fresh Run.saved Run.photo Run.relative_path Run.exhausted)
      as (Hout & _ & Hdeleted & _).
    + vm_compute. reflexivity.
    + left. vm_compute. reflexivity.
    + split; [exact Hout | ].
      apply Hdeleted.
      change (Os.path_join (upload_dir Run.settings) Run.relative_path
              ∉ (∅ : gset pystr)).
      apply not_elem_of_empty.
  - destruct (cleanup_before_error (H := Sample.lib) Run.settings Run.down
                Run.sticky Run.saved_sticky Run.photo Run.relative_path
                Run.exhausted)
      as (Hout & _ & _ & Hkept).
    + vm_compute. reflexivity.
    + left. vm_compute. reflexivity.
    + split; [exact Hout | ].
      apply Hkept.
      replace (Os.path_join (upload_dir Run.settings) Run.relative_path)
        with Run.full_path by (vm_compute; reflexivity).
      change (Run.full_path ∈ ({[ Run.full_path ]} : gset pystr)).
      apply elem_of_singleton_2. reflexivity.
Defined.
(** C3.  The code at the failing input.  A valid photograph is uploaded and
    the vision endpoint cannot be reached on any of the three attempts.
    [process_receipt_image] raises [ValueError], where its docstring names
    [HTTPException] for a failed API call, so the first handler of the
    endpoint takes it: the answer is a 400, not a 5xx, and its detail
    carries the text of the upstream exception, where the handler for other
    exceptions answers 500 with a fixed message. *)
Lemma exhaustion_not_generic :
  snd (process_receipt_ocr (H := Sample.lib) Run.settings Run.down Run.fresh
         Run.photo)
  = Raise (HTTPException 400
             «"OCR 처리에 실패했습니다: API 연결 오류: Connection error."»)
  /\ contains «"OCR 처리에 실패했습니다: API 연결 오류: Connection error."»
       «"Connection error."» = true
  /\ ~ generic_server_error
         (snd (process_receipt_ocr (H := Sample.lib) Run.settings Run.down
                 Run.fresh Run.photo))
         «"Connection error."».
Proof.
  assert (Hout :
    snd (process_receipt_ocr (H := Sample.lib) Run.settings Run.down Run.fresh
           Run.photo)
    = Raise (HTTPException 400
               «"OCR 처리에 실패했습니다: API 연결 오류: Connection error."»))
    by (vm_compute; reflexivity).
  split; [exact Hout | ].
  split; [vm_compute; reflexivity | ].
  rewrite Hout. intros (status & detail & Heq & Hstatus & _).
  injection Heq as <- _. lia.
Qed.

(** ** The save endpoint *)

Lemma find_category_absent (st : store) (name : pystr) :
  (forall c, c ∈ categories st -> cat_name c <> name) ->
  Mongo.find_category st name = None.
Proof.
  unfold Mongo.find_category.
  induction (categories st) as [ | c rest IH]; intros Habsent; [reflexivity | ].
  cbn [List.find].
  rewrite (bool_decide_eq_false_2 _ (Habsent c (list_elem_of_here c rest))).
  apply IH. intros c' Hin. apply Habsent. apply list_elem_of_further. exact Hin.
Qed.

(** C8.  A save request whose category name is that of no document of the
    category store fails with the 400 of an unknown category, and the
    database, the transaction store in it, is what it was before the call. *)
Theorem unknown_category_rejected `{PyLib} (now : datetime) (st : store)
    (request : ReceiptSaveRequest) :
  (forall c, c ∈ categories st -> cat_name c <> req_category request) ->
  save_receipt_transaction now (Some st) request
  = (Some st,
     Raise (HTTPException 400
              («"'"» ++ req_category request ++ «"' 카테고리가 존재하지 않습니다."»))).
Proof.
  intros Habsent. unfold save_receipt_transaction, save_transaction_body.
  rewrite (find_category_absent st _ Habsent). reflexivity.
Qed.

Lemma unknown_category_rejected_witness :
  save_receipt_transaction (H := Sample.lib) Run.now (Some Run.ledger)
    (Run.save_request «"여행"»)
  = (Some Run.ledger,
     Raise (HTTPException 400 («"'"» ++ «"여행"» ++ «"' 카테고리가 존재하지 않습니다."»))).
Proof.
  apply (unknown_category_rejected (H := Sample.lib) Run.now Run.ledger
           (Run.save_request «"여행"»)).
  intros c Hin. apply list_elem_of_singleton in Hin as ->.
  vm_compute. discriminate.
Defined.

(** * Further properties of the three files *)

(** ** Fences and whitespace *)

Lemma startswith_app (p s : pystr) : Str.startswith (p ++ s) p = true.
Proof.
  induction p as [ | c p IH]; [destruct s; reflexivity | ].
  simpl. rewrite N.eqb_refl. exact IH.
Qed.

Lemma lstrip_spaces (ws x : pystr) :
  Forall (fun c => Str.isspace c = true) ws ->
  Str.lstrip (ws ++ x) = Str.lstrip x.
Proof.
  induction 1 as [ | c ws Hc _ IH]; [reflexivity | ].
  simpl. rewrite Hc. exact IH.
Qed.

Lemma lstrip_empty (s : pystr) :
  Str.lstrip s = [] -> Forall (fun c => Str.isspace c = true) s.
Proof.
  induction s as [ | c s IH]; [constructor | ].
  simpl. destruct (Str.isspace c) eqn:Hc; [ | discriminate].
  intros Hs. constructor; [exact Hc | exact (IH Hs)].
Qed.

Lemma lstrip_head (s : pystr) :
  match Str.lstrip s with
  | [] => True
  | c :: _ => Str.isspace c = false
  end.
Proof.
  induction s as [ | c s IH]; [exact I | ].
  simpl. destruct (Str.isspace c) eqn:Hc; [exact IH | exact Hc].
Qed.

Lemma lstrip_fixed (c : N) (s : pystr) :
  Str.isspace c = false -> Str.lstrip (c :: s) = c :: s.
Proof. intros Hc. simpl. rewrite Hc. reflexivity. Qed.

(** Whitespace around a text that begins and ends with something else is
    all that [strip] removes. *)
Lemma strip_padded (ws1 ws2 x : pystr) (c d : N) (x1 x2 : pystr) :
  Forall (fun c => Str.isspace c = true) ws1 ->
  Forall (fun c => Str.isspace c = true) ws2 ->
  x = c :: x1 -> rev x = d :: x2 ->
  Str.isspace c = false -> Str.isspace d = false ->
  Str.strip (ws1 ++ x ++ ws2) = x.
Proof.
  intros Hws1 Hws2 Hhead Hlast Hc Hd. unfold Str.strip, Str.rstrip.
  rewrite (lstrip_spaces ws1 _ Hws1).
  rewrite Hhead at 1. cbn [app]. rewrite (lstrip_fixed c _ Hc).
  change (c :: x1 ++ ws2) with ((c :: x1) ++ ws2). rewrite <- Hhead.
  rewrite rev_app_distr, (lstrip_spaces (rev ws2)) by (apply Forall_rev; exact Hws2).
  rewrite Hlast, (lstrip_fixed d _ Hd), <- Hlast. apply rev_involutive.
Qed.

Lemma lstrip_suffix (l : pystr) : exists pre, l = pre ++ Str.lstrip l.
Proof.
  induction l as [ | a l (pre & IH)]; [exists []; reflexivity | ].
  simpl. destruct (Str.isspace a).
  - exists (a :: pre). simpl. f_equal. exact IH.
  - exists []. reflexivity.
Qed.

(** A stripped text is empty, or begins and ends with something that is
    not whitespace. *)
Lemma strip_shape (s : pystr) :
  Str.strip s = []
  \/ exists c y d u,
       Str.strip s = c :: y /\ rev (Str.strip s) = d :: u
       /\ Str.isspace c = false /\ Str.isspace d = false.
Proof.
  unfold Str.strip, Str.rstrip.
  pose proof (lstrip_head s) as Hc.
  destruct (Str.lstrip s) as [ | c0 t] eqn:Hl; [left; reflexivity | ].
  pose proof (lstrip_head (rev (c0 :: t))) as Hd.
  destruct (lstrip_suffix (rev (c0 :: t))) as (pre & Hpre).
  destruct (Str.lstrip (rev (c0 :: t))) as [ | d u] eqn:Hu; [left; reflexivity | ].
  right. apply (f_equal (@rev N)) in Hpre.
  rewrite rev_involutive, rev_app_distr in Hpre.
  destruct (rev (d :: u)) as [ | e y] eqn:Hrev.
  - apply (f_equal (@length N)) in Hrev. rewrite length_rev in Hrev. discriminate.
  - simpl in Hpre. injection Hpre as -> _.
    exists e, y, d, u. repeat split; try assumption.
    rewrite <- Hrev. apply rev_involutive.
Qed.

Lemma strip_idempotent (s : pystr) : Str.strip (Str.strip s) = Str.strip s.
Proof.
  destruct (strip_shape s) as [-> | (c & y & d & u & Hs & Hrev & Hc & Hd)];
    [reflexivity | ].
  pose proof (strip_padded [] [] (Str.strip s) c d y u
                (List.Forall_nil _) (List.Forall_nil _) Hs Hrev Hc Hd) as Hpad.
  rewrite app_nil_r in Hpad. exact Hpad.
Qed.

Lemma startswith_nil (s : pystr) : Str.startswith s [] = true.
Proof. destruct s; reflexivity. Qed.

Lemma startswith_longer (s p q : pystr) :
  Str.startswith s p = false -> Str.startswith s (p ++ q) = false.
Proof.
  revert s. induction p as [ | c p IH]; intros s Hs.
  - rewrite startswith_nil in Hs. discriminate.
  - destruct s as [ | d s]; [reflexivity | ].
    cbn [app Str.startswith] in Hs |- *.
    destruct (c =? d)%N; [exact (IH s Hs) | reflexivity].
Qed.

(** A body that does not begin with [json] does not begin with it once
    the closing fence is appended. *)
Lemma no_json_tag (body : pystr) :
  Str.startswith body «"json"» = false ->
  Str.startswith (body ++ «"```"») «"json"» = false.
Proof.
  change «"json"» with [106; 115; 111; 110]%N.
  change «"```"» with [96; 96; 96]%N.
  destruct body as [ | b0 [ | b1 [ | b2 [ | b3 l]]]];
    cbn [app Str.startswith]; rewrite ?startswith_nil; intros Hjson;
    repeat match goal with
           | |- context [(?a =? ?b)%N] => is_var b; destruct (a =? b)%N
           end;
    try reflexivity; exact Hjson.
Qed.

Lemma fence_json_codes : «"```json"» = [96; 96; 96; 106; 115; 111; 110]%N.
Proof. reflexivity. Qed.

Lemma fence_codes : «"```"» = [96; 96; 96]%N.
Proof. reflexivity. Qed.

(** What is between a fence and its closing fence, whatever surrounds
    them. *)
Lemma strip_fences_fenced (ws1 ws2 opening body : pystr) :
  Forall (fun c => Str.isspace c = true) ws1 ->
  Forall (fun c => Str.isspace c = true) ws2 ->
  opening = «"```json"»
  \/ (opening = «"```"» /\ Str.startswith body «"json"» = false) ->
  strip_fences (ws1 ++ (opening ++ body ++ «"```"») ++ ws2) = Str.strip body.
Proof.
  intros Hws1 Hws2 Hopen. unfold strip_fences.
  assert (Hstrip : Str.strip (ws1 ++ (opening ++ body ++ «"```"») ++ ws2)
                   = opening ++ body ++ «"```"»).
  { apply (strip_padded ws1 ws2 _ 96%N 96%N
             (tl (opening ++ body ++ «"```"»))
             ([96; 96]%N ++ rev body ++ rev opening) Hws1 Hws2);
      try reflexivity.
    - destruct Hopen as [-> | (-> & _)]; reflexivity.
    - rewrite !rev_app_distr, fence_codes. reflexivity. }
  rewrite Hstrip. clear Hstrip.
  assert (Hdrop :
    (if Str.startswith (opening ++ body ++ «"```"») «"```json"»
     then drop 7 (opening ++ body ++ «"```"»)
     else if Str.startswith (opening ++ body ++ «"```"») «"```"»
          then drop 3 (opening ++ body ++ «"```"»)
          else opening ++ body ++ «"```"»)
    = body ++ «"```"»).
  { destruct Hopen as [-> | (-> & Hjson)].
    - rewrite startswith_app. reflexivity.
    - pose proof (no_json_tag body Hjson) as Hno.
      change «"json"» with [106; 115; 111; 110]%N in Hno.
      rewrite fence_codes in Hno |- *. rewrite fence_json_codes.
      cbn [app Str.startswith]. rewrite !N.eqb_refl. cbn [andb].
      rewrite Hno, startswith_nil. reflexivity. }
  rewrite Hdrop. clear Hdrop.
  assert (Hend : Str.endswith (body ++ «"```"») «"```"» = true).
  { unfold Str.endswith. rewrite rev_app_distr. apply startswith_app. }
  rewrite Hend. f_equal.
  rewrite length_app, fence_codes. cbn [length].
  replace (length body + 3 - 3)%nat with (length body) by lia.
  apply take_app_length.
Qed.

(** A text without fences is only trimmed. *)
Lemma strip_fences_plain (text : pystr) :
  Str.startswith (Str.strip text) «"```"» = false ->
  Str.endswith (Str.strip text) «"```"» = false ->
  strip_fences text = Str.strip text.
Proof.
  intros Hstart Hend. unfold strip_fences.
  assert (Hjson : Str.startswith (Str.strip text) «"```json"» = false)
    by exact (startswith_longer _ «"```"» «"json"» Hstart).
  rewrite Hjson, Hstart, Hend. apply strip_idempotent.
Qed.

(** X1.  A reply wrapped in a markdown fence, with or without the [json]
    tag and with any whitespace around the fences, is parsed exactly as the
    bare reply is. *)
Theorem fenced_response_parses_as_bare `{PyLib}
    (ws1 ws2 opening body : pystr) :
  Forall (fun c => Str.isspace c = true) ws1 ->
  Forall (fun c => Str.isspace c = true) ws2 ->
  opening = «"```json"»
  \/ (opening = «"```"» /\ Str.startswith body «"json"» = false) ->
  Str.startswith (Str.strip body) «"```"» = false ->
  Str.endswith (Str.strip body) «"```"» = false ->
  parse_ocr_response (ws1 ++ (opening ++ body ++ «"```"») ++ ws2)
  = parse_ocr_response body.
Proof.
  intros Hws1 Hws2 Hopen Hstart Hend. unfold parse_ocr_response, parse_body.
  rewrite (strip_fences_fenced ws1 ws2 opening body Hws1 Hws2 Hopen).
  rewrite (strip_fences_plain body Hstart Hend). reflexivity.
Qed.

Lemma fenced_response_parses_as_bare_witness :
  parse_ocr_response (H := Sample.lib)
    ([] ++ («"```json"» ++ Scene.fenced_body ++ «"```"») ++ [10%N])
  = parse_ocr_response (H := Sample.lib) Scene.fenced_body.
Proof.
  apply (fenced_response_parses_as_bare (H := Sample.lib) [] [10%N]
           «"```json"» Scene.fenced_body).
  - constructor.
  - repeat constructor.
  - left. reflexivity.
  - reflexivity.
  - reflexivity.
Defined.

(** ** Two edges of the sanitizer *)

Lemma items_default (d : list (pystr * pyval)) :
  match
    match dict_lookup «"items"» d with
    | Some v => v
    | None => PyList []
    end
  with
  | PyList l => l
  | _ => []
  end = items_of d.
Proof.
  unfold items_of.
  destruct (dict_lookup «"items"» d) as [[ | | | | | | ] | ]; reflexivity.
Qed.

(** X2.  An explicit [null] for confidence is not replaced by the default:
    the result carries [None] as its confidence, where a missing key gives
    0.0. *)
Theorem null_confidence_stays_none `{PyLib}
    (response_text : pystr) (d : list (pystr * pyval)) :
  json_loads (strip_fences response_text) = Ok (PyDict d) ->
  dict_lookup «"confidence"» d = Some PyNone ->
  overflows (field d «"total"») = false ->
  forallb price_fits (items_of d) = true ->
  exists r,
    parse_ocr_response response_text = Ok r
    /\ r_confidence r = PyNone
    /\ r_total r = total_or_dropped (field d «"total"»).
Proof.
  intros Hloads Hnull Htotal Hitems.
  unfold parse_ocr_response, parse_body. rewrite Hloads. cbn [bind py_get].
  fold (field d «"total"»). rewrite (coerce_total_spec _ Htotal). cbn [bind].
  rewrite Hnull. cbn [coerce_confidence bind].
  rewrite items_default, (validate_items_spec _ Hitems). cbn [bind].
  eexists. repeat split.
Qed.

Lemma null_confidence_stays_none_witness :
  exists r,
    parse_ocr_response (H := Scene.lib) Scene.text_null_confidence = Ok r
    /\ r_confidence r = PyNone
    /\ r_total r = total_or_dropped (H := Scene.lib)
                     (field [(«"confidence"», PyNone); («"total"», PyInt 12)]
                        «"total"»).
Proof.
  apply (null_confidence_stays_none (H := Scene.lib) Scene.text_null_confidence
           [(«"confidence"», PyNone); («"total"», PyInt 12)]);
    reflexivity.
Defined.

Lemma overflows_raises `{PyLib} (v : pyval) :
  overflows v = true ->
  py_float v = Raise (OverflowError «"int too large to convert to float"»).
Proof.
  destruct v as [ | b | z | f | s | l | d]; try discriminate.
  unfold overflows, py_float, float_of_int.
  destruct (binary_normalize prec emax z 0 false); try discriminate.
  reflexivity.
Qed.

(** X3.  An integer total beyond the range of [float] is not dropped like
    other totals that fail coercion: [OverflowError] is none of the
    exceptions the inner handler catches, so the whole parse fails with
    [ValueError]. *)
Theorem huge_total_fails_the_parse `{PyLib}
    (response_text : pystr) (d : list (pystr * pyval)) :
  json_loads (strip_fences response_text) = Ok (PyDict d) ->
  overflows (field d «"total"») = true ->
  parse_ocr_response response_text
  = Raise (ValueError («"응답 처리 중 오류가 발생했습니다: "»
                       ++ «"int too large to convert to float"»)).
Proof.
  intros Hloads Hhuge.
  unfold parse_ocr_response, parse_body. rewrite Hloads. cbn [bind py_get].
  fold (field d «"total"»).
  assert (Hcoerce : coerce_total (field d «"total"»)
                    = Raise (OverflowError «"int too large to convert to float"»)).
  { unfold coerce_total. rewrite (overflows_raises _ Hhuge).
    destruct (field d «"total"»); try discriminate. reflexivity. }
  rewrite Hcoerce. reflexivity.
Qed.

Lemma huge_total_fails_the_parse_witness :
  parse_ocr_response (H := Scene.lib) Scene.text_huge_total
  = Raise (ValueError («"응답 처리 중 오류가 발생했습니다: "»
                       ++ «"int too large to convert to float"»)).
Proof.
  apply (huge_total_fails_the_parse (H := Scene.lib) Scene.text_huge_total
           [(«"total"», PyInt (10 ^ 400))]).
  - reflexivity.
  - vm_compute. reflexivity.
Defined.

(** ** MIME types and URLs *)

(** X4.  Whatever the path, the MIME type sent to the vision endpoint is
    one the upload service allows; an extension outside the table gives
    [image/jpeg]. *)
Theorem mime_type_is_allowed `{PyLib} (image_path : pystr) :
  get_image_mime_type image_path ∈ ALLOWED_MIME_TYPES
  /\ (str_lower (path_suffix image_path)
        ∉ ({[ «".png"»; «".heic"»; «".webp"» ]} : gset pystr) ->
      get_image_mime_type image_path = «"image/jpeg"»).
Proof.
  unfold get_image_mime_type. split.
  - repeat match goal with
           | |- context [decide ?P] => destruct (decide P)
           end;
      apply (bool_decide_eq_true_1 _); reflexivity.
  - intros Hother.
    repeat match goal with
           | |- context [decide ?P] => destruct (decide P) as [Heq | ]
           end; try reflexivity; exfalso; apply Hother; rewrite Heq;
      apply (bool_decide_eq_true_1 _); reflexivity.
Qed.

Lemma mime_type_is_allowed_witness :
  get_image_mime_type (H := Sample.lib) «"scan.tiff"» = «"image/jpeg"».
Proof.
  destruct (mime_type_is_allowed (H := Sample.lib) «"scan.tiff"») as (_ & Hjpeg).
  apply Hjpeg. apply (bool_decide_eq_false_1 _). reflexivity.
Defined.

Lemma strip_blank (s : pystr) :
  Forall (fun c => Str.isspace c = true) s -> Str.strip s = [].
Proof.
  intros Hs. unfold Str.strip.
  pose proof (lstrip_spaces s [] Hs) as Hl. rewrite app_nil_r in Hl.
  rewrite Hl. reflexivity.
Qed.

Lemma strip_not_blank (s : pystr) :
  Str.strip s = [] -> Forall (fun c => Str.isspace c = true) s.
Proof.
  unfold Str.strip, Str.rstrip. intros Hs.
  apply (f_equal (@rev N)) in Hs. rewrite rev_involutive in Hs. simpl in Hs.
  apply lstrip_empty in Hs. apply Forall_rev in Hs.
  rewrite rev_involutive in Hs.
  destruct (lstrip_suffix s) as (pre & Hpre).
  assert (Hall : Forall (fun c => Str.isspace c = true) (Str.lstrip s)) by exact Hs.
  destruct (Str.lstrip s) as [ | c t] eqn:Hl.
  - apply lstrip_empty. exact Hl.
  - pose proof (lstrip_head s) as Hc. rewrite Hl in Hc.
    inversion Hall as [ | ? ? Hspace _]. congruence.
Qed.

Lemma replace_char_gone (c : N) (r s : pystr) :
  c ∉ r -> c ∉ Str.replace_char c r s.
Proof.
  intros Hr. unfold Str.replace_char.
  induction s as [ | d s IH]; [apply not_elem_of_nil | ].
  cbn [flat_map]. rewrite elem_of_app. intros [Hd | Hs]; [ | exact (IH Hs)].
  destruct (d =? c)%N eqn:Hdc; [exact (Hr Hd) | ].
  apply list_elem_of_singleton in Hd. subst d. rewrite N.eqb_refl in Hdc.
  discriminate.
Qed.

(** X5.  [get_file_url] gives the empty string for a blank path, and for
    any other path a URL under [http://localhost:8000/api/files/] in which
    no backslash is left. *)
Theorem file_url_shape (file_path : pystr) :
  (Forall (fun c => Str.isspace c = true) file_path ->
   get_file_url file_path = [])
  /\ (~ Forall (fun c => Str.isspace c = true) file_path ->
      Str.startswith (get_file_url file_path)
        «"http://localhost:8000/api/files/"» = true
      /\ 92%N ∉ get_file_url file_path).
Proof.
  unfold get_file_url. split.
  - intros Hblank. rewrite (strip_blank _ Hblank). reflexivity.
  - intros Hsome.
    destruct (Str.strip file_path) as [ | c t] eqn:Hstrip.
    { exfalso. apply Hsome. apply strip_not_blank. exact Hstrip. }
    cbn [Str.truthy negb].
    pose proof (replace_char_gone 92%N «"/"» (c :: t)) as Hgone.
    set (p := Str.replace_char 92%N «"/"» (c :: t)) in *.
    assert (Hslash : (92%N : N) ∉ «"/"») by (apply (bool_decide_eq_false_1 _); reflexivity).
    specialize (Hgone Hslash).
    assert (Hprefix : (92%N : N) ∉ base_url ++ «"/api/files"»)
      by (apply (bool_decide_eq_false_1 _); reflexivity).
    destruct (Str.startswith p «"/"») eqn:Hp; cbn [negb].
    + split.
      * destruct p as [ | a p']; [discriminate | ].
        change «"/"» with [47%N] in Hp. cbn [Str.startswith] in Hp.
        rewrite startswith_nil, andb_true_r in Hp. apply N.eqb_eq in Hp. subst a.
        change (base_url ++ «"/api/files"» ++ 47%N :: p')
          with («"http://localhost:8000/api/files/"» ++ p').
        apply startswith_app.
      * rewrite app_assoc, elem_of_app. intros [Hin | Hin]; contradiction.
    + split.
      * change (base_url ++ «"/api/files"» ++ «"/"» ++ p)
          with («"http://localhost:8000/api/files/"» ++ p).
        apply startswith_app.
      * rewrite !app_assoc, elem_of_app. intros [Hin | Hin]; [ | contradiction].
        revert Hin. apply (bool_decide_eq_false_1 _). reflexivity.
Qed.

Lemma file_url_shape_witness :
  Str.startswith (get_file_url «" receipts\2024\03\r.jpg"»)
    «"http://localhost:8000/api/files/"» = true
  /\ 92%N ∉ get_file_url «" receipts\2024\03\r.jpg"».
Proof.
  destruct (file_url_shape «" receipts\2024\03\r.jpg"») as (_ & Hurl).
  apply Hurl. intros Hblank. apply strip_blank in Hblank.
  vm_compute in Hblank. discriminate.
Defined.

(** ** More of the retry loop *)

Section RetryShape.
Context `{PyLib}.
Variable settings : Settings.
Variable vision : Z -> api_outcome.
Variables max_retries timeout : Z.

Lemma handle_fatal_is_ValueError (e e' : exn) :
  handle_error timeout e = Fatal e' -> is_ValueError e' = true.
Proof.
  destruct e; simpl; intros Hf; try discriminate;
    injection Hf as <-; reflexivity.
Qed.

Lemma handle_unexpected (e : exn) :
  unexpected e = true ->
  handle_error timeout e = Retry («"예상치 못한 오류: "» ++ exn_str e).
Proof. destruct e; simpl; intros Hu; try discriminate; reflexivity. Qed.

(** The loop over the attempts [a], ..., [max_retries]. *)
Lemma retry_loop_shape (len : nat) :
  forall (a : nat) (last_error : option pystr) (w : world),
    (len <> 0%nat -> Z.of_nat (a + len) = max_retries + 1) ->
    exists evs,
      fst (retry_loop vision max_retries timeout
             (map Z.of_nat (seq a len)) last_error w) = extend w evs
      /\ ((len = 0%nat /\ evs = [])
          \/ exists k : nat,
               (a <= k)%nat /\ Z.of_nat k <= max_retries
               /\ evs = flat_map backed_off (map Z.of_nat (seq a (k - a)))
                        ++ [EvCall (Z.of_nat k)]).
Proof.
  induction len as [ | len IH]; intros a last_error w Hlen.
  - exists []. cbn [seq map retry_loop fst]. rewrite extend_nil.
    split; [reflexivity | left; split; reflexivity].
  - specialize (Hlen ltac:(discriminate)).
    assert (Hhere : exists k : nat,
              (a <= k)%nat /\ Z.of_nat k <= max_retries
              /\ [EvCall (Z.of_nat a)]
                 = flat_map backed_off (map Z.of_nat (seq a (k - a)))
                   ++ [EvCall (Z.of_nat k)]).
    { exists a. split; [lia | split; [lia | ]].
      replace (a - a)%nat with 0%nat by lia. reflexivity. }
    cbn [seq map retry_loop].
    destruct (attempt_body vision (Z.of_nat a)) as [r | e].
    { exists [EvCall (Z.of_nat a)]. split; [reflexivity | right; exact Hhere]. }
    destruct (handle_error timeout e) as [msg | e'].
    2: { exists [EvCall (Z.of_nat a)]. split; [reflexivity | right; exact Hhere]. }
    destruct len as [ | len'].
    + replace (Z.of_nat a <? max_retries) with false
        by (symmetry; apply Z.ltb_ge; lia).
      exists [EvCall (Z.of_nat a)]. cbn [seq map retry_loop fst].
      split; [reflexivity | right; exact Hhere].
    + replace (Z.of_nat a <? max_retries) with true
        by (symmetry; apply Z.ltb_lt; lia).
      destruct (IH (S a) (Some msg)
                  (emit (emit w (EvCall (Z.of_nat a)))
                     (EvSleep (Z.of_nat a * 2))))
        as (evs & Hfst & Hshape); [intros _; lia | ].
      exists (backed_off (Z.of_nat a) ++ evs).
      split.
      * rewrite Hfst, !emit_extend, !extend_extend. reflexivity.
      * right. destruct Hshape as [(Hzero & _) | (k & Hk & Hmax & ->)];
          [discriminate | ].
        exists k. split; [lia | split; [exact Hmax | ]].
        replace (k - a)%nat with (S (k - S a)) by lia.
        cbn [seq map flat_map]. rewrite <- app_assoc. reflexivity.
Qed.

Lemma retry_loop_raises (attempts : list Z) :
  forall (last_error : option pystr) (w w' : world) (e : exn),
    retry_loop vision max_retries timeout attempts last_error w = (w', Raise e) ->
    is_ValueError e = true.
Proof.
  induction attempts as [ | n rest IH]; intros last_error w w' e; cbn [retry_loop].
  - intros Heq. injection Heq as _ <-. reflexivity.
  - destruct (attempt_body vision n) as [r | e0]; [discriminate | ].
    destruct (handle_error timeout e0) as [msg | e0'] eqn:Hh.
    + apply IH.
    + intros Heq. injection Heq as _ <-.
      exact (handle_fatal_is_ValueError _ _ Hh).
Qed.

Lemma prepare_raises (w w0 : world) (image_path : pystr) (e : exn) :
  prepare settings w image_path = (w0, Raise e) ->
  is_ValueError e = true.
Proof.
  unfold prepare, get_openai_client.
  destruct (client w);
    [ | destruct (negb (opt_truthy (openai_api_key settings)))];
    repeat match goal with
           | |- context [if ?b then _ else _] => destruct b
           | |- context [match encode_image ?a ?b with _ => _ end] =>
             destruct (encode_image a b)
           end;
    intros Heq; try discriminate; injection Heq as _ <-; reflexivity.
Qed.

Lemma process_receipt_image_raises (w w' : world) (image_path : pystr)
    (e : exn) :
  process_receipt_image settings vision w image_path max_retries timeout
  = (w', Raise e) ->
  is_ValueError e = true.
Proof.
  unfold process_receipt_image.
  destruct (prepare settings w image_path) as [w0 [req | e0]] eqn:Hprep.
  - apply retry_loop_raises.
  - intros Heq. injection Heq as _ <-.
    exact (prepare_raises _ _ _ _ Hprep).
Qed.

(** Every attempt is retried, whatever the reason. *)
Lemma retry_loop_exhausted_any (errs : Z -> exn) (msgs : Z -> pystr)
    (w : world) :
  1 <= max_retries ->
  (forall n, 1 <= n <= max_retries ->
     vision n = ApiRaise (errs n)
     /\ handle_error timeout (errs n) = Retry (msgs n)) ->
  retry_loop vision max_retries timeout (attempts_range max_retries) None w
  = (extend w (exhausted_trace max_retries),
     Raise (ValueError («"OCR 처리에 실패했습니다: "» ++ msgs max_retries))).
Proof.
  intros Hmax Hall.
  rewrite (attempts_range_snoc max_retries Hmax). unfold attempts_range at 1.
  rewrite retry_loop_backs_off.
  - destruct (Hall max_retries ltac:(lia)) as (Hcall & Hretry).
    cbn [retry_loop]. unfold attempt_body.
    rewrite Hcall, Hretry, Z.ltb_irrefl.
    rewrite emit_extend, extend_extend. reflexivity.
  - intros i Hi. destruct (Hall (Z.of_nat i) ltac:(lia)) as (Hcall & Hretry).
    exists (errs (Z.of_nat i)), (msgs (Z.of_nat i)).
    split; [exact Hcall | exact Hretry].
  - lia.
Qed.

End RetryShape.

(** X6.  Whatever the vision endpoint answers, the events of one run of
    [process_receipt_image] are none at all, or the requests 1 to [k] for
    some [k <= max_retries], each but the last followed by a sleep of twice
    its number: never more than [max_retries] requests, never a sleep after
    the last one. *)
Theorem every_run_has_the_shape `{PyLib} (settings : Settings)
    (vision : Z -> api_outcome) (w : world) (image_path : pystr)
    (max_retries timeout : Z) :
  exists evs,
    trace (fst (process_receipt_image settings vision w image_path
                  max_retries timeout)) = trace w ++ evs
    /\ run_shape max_retries evs.
Proof.
  unfold process_receipt_image.
  destruct (prepare settings w image_path) as [w0 [req | e]] eqn:Hprep;
    destruct (prepare_world _ _ _ _ _ Hprep) as (Htrace & _).
  - destruct (retry_loop_shape vision max_retries timeout
                (Z.to_nat max_retries) 1 None w0 ltac:(lia))
      as (evs & Hfst & Hshape).
    exists evs. unfold attempts_range. rewrite Hfst. cbn [extend trace].
    rewrite Htrace. split; [reflexivity | ].
    destruct Hshape as [(_ & ->) | (k & Hk & Hmax & ->)]; [left; reflexivity | ].
    right. exists (Z.of_nat k). split; [lia | ].
    unfold attempts_range. replace (Z.to_nat (Z.of_nat k - 1)) with (k - 1)%nat by lia.
    reflexivity.
  - exists []. cbn [fst]. rewrite Htrace, app_nil_r.
    split; [reflexivity | left; reflexivity].
Qed.

(** X7.  With [max_retries] zero or negative the loop body never runs: no
    request is sent, and the failure raised reports [None] as its cause. *)
Theorem no_attempt_allowed `{PyLib} (settings : Settings)
    (vision : Z -> api_outcome) (w w0 : world) (image_path : pystr)
    (req : pystr * list Byte.byte) (max_retries timeout : Z) :
  prepare settings w image_path = (w0, Ok req) ->
  max_retries <= 0 ->
  let run :=
    process_receipt_image settings vision w image_path max_retries timeout in
  snd run = Raise (ValueError («"OCR 처리에 실패했습니다: "» ++ «"None"»))
  /\ trace (fst run) = trace w.
Proof.
  intros Hprep Hmax run. subst run.
  rewrite (process_after_prepare _ _ _ _ _ _ _ _ Hprep).
  unfold attempts_range. replace (Z.to_nat max_retries) with 0%nat by lia.
  cbn [seq map retry_loop fst snd fmt_last_error].
  destruct (prepare_world _ _ _ _ _ Hprep) as (-> & _). split; reflexivity.
Qed.

Lemma no_attempt_allowed_witness :
  snd (process_receipt_image (H := Sample.lib) Run.settings Run.down Run.stored
         Run.relative_path 0 30)
  = Raise (ValueError («"OCR 처리에 실패했습니다: "» ++ «"None"»))
  /\ trace (fst (process_receipt_image (H := Sample.lib) Run.settings Run.down
                   Run.stored Run.relative_path 0 30))
     = trace Run.stored.
Proof.
  apply (no_attempt_allowed (H := Sample.lib) Run.settings Run.down Run.stored
           (set_client Run.stored true) Run.relative_path
           («"image/jpeg"», Run.jpeg) 0 30).
  - reflexivity.
  - lia.
Defined.

(** X8.  An exception that is neither the timeout, nor an API error, nor a
    [ValueError] is retried like a timeout: when every attempt raises one,
    all [max_retries] requests are made, with the backoff between them, and
    the failure carries the text of the last exception. *)
Theorem unexpected_errors_are_retried `{PyLib} (settings : Settings)
    (vision : Z -> api_outcome) (w w0 : world) (image_path : pystr)
    (req : pystr * list Byte.byte) (max_retries timeout : Z)
    (errs : Z -> exn) :
  prepare settings w image_path = (w0, Ok req) ->
  1 <= max_retries ->
  (forall n, 1 <= n <= max_retries ->
     vision n = ApiRaise (errs n) /\ unexpected (errs n) = true) ->
  let run :=
    process_receipt_image settings vision w image_path max_retries timeout in
  snd run = Raise (ValueError
                     («"OCR 처리에 실패했습니다: "»
                      ++ «"예상치 못한 오류: "» ++ exn_str (errs max_retries)))
  /\ trace (fst run) = trace w ++ exhausted_trace max_retries.
Proof.
  intros Hprep Hmax Hall run. subst run.
  rewrite (process_after_prepare _ _ _ _ _ _ _ _ Hprep).
  rewrite (retry_loop_exhausted_any vision max_retries timeout errs
             (fun n => «"예상치 못한 오류: "» ++ exn_str (errs n)) w0 Hmax).
  - cbn [fst snd extend trace].
    destruct (prepare_world _ _ _ _ _ Hprep) as (-> & _). split; reflexivity.
  - intros n Hn. destruct (Hall n Hn) as (Hcall & Hunexpected).
    split; [exact Hcall | exact (handle_unexpected timeout _ Hunexpected)].
Qed.

Lemma unexpected_errors_are_retried_witness :
  snd (process_receipt_image (H := Sample.lib) Run.settings Scene.crashing
         Run.stored Run.relative_path 3 30)
  = Raise (ValueError
             («"OCR 처리에 실패했습니다: "»
              ++ «"예상치 못한 오류: "» ++ exn_str (OtherException «"boom"»)))
  /\ trace (fst (process_receipt_image (H := Sample.lib) Run.settings
                   Scene.crashing Run.stored Run.relative_path 3 30))
     = trace Run.stored ++ exhausted_trace 3.
Proof.
  apply (unexpected_errors_are_retried (H := Sample.lib) Run.settings
           Scene.crashing Run.stored (set_client Run.stored true)
           Run.relative_path («"image/jpeg"», Run.jpeg) 3 30
           (fun _ => OtherException «"boom"»)).
  - reflexivity.
  - lia.
  - intros n Hn. split; reflexivity.
Defined.

(** X9.  The first attempt that gets a parseable reply ends the run: when
    attempts 1 to [n - 1] were retried and attempt [n] succeeds, the
    sanitized reply of attempt [n] is returned, request [n] is the last
    event, and the remaining attempts are not made. *)
Theorem first_success_ends_the_run `{PyLib} (settings : Settings)
    (vision : Z -> api_outcome) (w w0 : world) (image_path : pystr)
    (req : pystr * list Byte.byte) (max_retries timeout n : Z)
    (text : pystr) (r : ocr_result) :
  prepare settings w image_path = (w0, Ok req) ->
  1 <= n <= max_retries ->
  (forall k, 1 <= k < n ->
     exists e msg, vision k = ApiRaise e /\ handle_error timeout e = Retry msg) ->
  vision n = ApiContent (Some text) ->
  Str.truthy text = true ->
  parse_ocr_response text = Ok r ->
  let run :=
    process_receipt_image settings vision w image_path max_retries timeout in
  snd run = Ok r
  /\ trace (fst run)
     = trace w ++ flat_map backed_off (attempts_range (n - 1)) ++ [EvCall n].
Proof.
  intros Hprep Hn Hbefore Hcall Htext Hparse run. subst run.
  rewrite (process_after_prepare _ _ _ _ _ _ _ _ Hprep).
  rewrite (retry_loop_reaches vision max_retries timeout n w0 (Ok r) Hn Hbefore).
  - cbn [fst snd extend trace].
    destruct (prepare_world _ _ _ _ _ Hprep) as (-> & _). split; reflexivity.
  - unfold attempt_body. rewrite Hcall, Htext. exact Hparse.
  - exact I.
Qed.

Lemma first_success_ends_the_run_witness :
  exists r,
    parse_ocr_response (H := Sample.lib) Sample.text_sloppy = Ok r
    /\ snd (process_receipt_image (H := Sample.lib) Run.settings
              Scene.third_time Run.stored Run.relative_path 5 30) = Ok r
    /\ trace (fst (process_receipt_image (H := Sample.lib) Run.settings
                     Scene.third_time Run.stored Run.relative_path 5 30))
       = trace Run.stored
         ++ flat_map backed_off (attempts_range (3 - 1)) ++ [EvCall 3].
Proof.
  destruct (parse_ocr_response (H := Sample.lib) Sample.text_sloppy)
    as [r | ex] eqn:Hparse; [ | discriminate].
  exists r. split; [reflexivity | ].
  apply (first_success_ends_the_run (H := Sample.lib) Run.settings
           Scene.third_time Run.stored (set_client Run.stored true)
           Run.relative_path («"image/jpeg"», Run.jpeg) 5 30 3
           Sample.text_sloppy r).
  - reflexivity.
  - lia.
  - intros k Hk. exists AsyncioTimeoutError. eexists.
    split; [ | reflexivity].
    unfold Scene.third_time. replace (k <? 3) with true; [reflexivity | ].
    symmetry. apply Z.ltb_lt. lia.
  - reflexivity.
  - reflexivity.
  - exact Hparse.
Defined.

(** X10.  An error of the remote API that is not a connection error ends
    the run on whichever attempt it occurs: it is re-raised as a
    [ValueError] naming the API failure, with no backoff after it and no
    further attempt. *)
Theorem api_error_ends_the_run `{PyLib} (settings : Settings)
    (vision : Z -> api_outcome) (w w0 : world) (image_path : pystr)
    (req : pystr * list Byte.byte) (max_retries timeout n : Z) (msg : pystr) :
  prepare settings w image_path = (w0, Ok req) ->
  1 <= n <= max_retries ->
  (forall k, 1 <= k < n ->
     exists e m, vision k = ApiRaise e /\ handle_error timeout e = Retry m) ->
  vision n = ApiRaise (APIError msg) ->
  let run :=
    process_receipt_image settings vision w image_path max_retries timeout in
  snd run = Raise (ValueError («"OpenAI API 호출 실패: "» ++ msg))
  /\ trace (fst run)
     = trace w ++ flat_map backed_off (attempts_range (n - 1)) ++ [EvCall n].
Proof.
  intros Hprep Hn Hbefore Hcall run. subst run.
  rewrite (process_after_prepare _ _ _ _ _ _ _ _ Hprep).
  rewrite (retry_loop_reaches vision max_retries timeout n w0
             (Raise (APIError msg)) Hn Hbefore).
  - cbn [fst snd extend trace].
    destruct (prepare_world _ _ _ _ _ Hprep) as (-> & _). split; reflexivity.
  - unfold attempt_body. rewrite Hcall. reflexivity.
  - eexists. reflexivity.
Qed.

Lemma api_error_ends_the_run_witness :
  snd (process_receipt_image (H := Sample.lib) Run.settings Scene.quota
         Run.stored Run.relative_path 3 30)
  = Raise (ValueError («"OpenAI API 호출 실패: "» ++ «"Error code: 429"»))
  /\ trace (fst (process_receipt_image (H := Sample.lib) Run.settings
                   Scene.quota Run.stored Run.relative_path 3 30))
     = trace Run.stored
       ++ flat_map backed_off (attempts_range (2 - 1)) ++ [EvCall 2].
Proof.
  apply (api_error_ends_the_run (H := Sample.lib) Run.settings Scene.quota
           Run.stored (set_client Run.stored true) Run.relative_path
           («"image/jpeg"», Run.jpeg) 3 30 2 «"Error code: 429"»).
  - reflexivity.
  - lia.
  - intros k Hk. assert (k = 1) as -> by lia.
    exists AsyncioTimeoutError. eexists. split; reflexivity.
  - reflexivity.
Defined.

(** X11.  [process_receipt_image] raises nothing but [ValueError] (or a
    subclass of it), and it reads the filesystem without ever changing
    it. *)
Theorem extraction_raises_only_value_error `{PyLib} (settings : Settings)
    (vision : Z -> api_outcome) (w : world) (image_path : pystr)
    (max_retries timeout : Z) :
  let run :=
    process_receipt_image settings vision w image_path max_retries timeout in
  (forall e, snd run = Raise e -> is_ValueError e = true)
  /\ fs (fst run) = fs w.
Proof.
  intros run. subst run.
  destruct (process_receipt_image settings vision w image_path
              max_retries timeout) as [w' res] eqn:Hrun.
  cbn [fst snd]. split.
  - intros e ->.
    exact (process_receipt_image_raises settings vision _ _ _ _ _ _ Hrun).
  - exact (proj1 (process_receipt_image_files settings vision _ _ _ _ _ _ Hrun)).
Qed.

(** X12.  When the image is not on disk, or is a directory,
    [process_receipt_image] fails with [ValueError] before the loop: no
    request is sent.  For a missing file and a client that can be built, the
    message names the full path that was looked up. *)
Theorem unreadable_image_makes_no_request `{PyLib} (settings : Settings)
    (vision : Z -> api_outcome) (w : world) (image_path : pystr)
    (max_retries timeout : Z) :
  let full :=
    if negb (Os.isabs image_path) then get_file_path settings image_path
    else image_path in
  let run :=
    process_receipt_image settings vision w image_path max_retries timeout in
  fs w !! full = None \/ fs w !! full = Some Dir ->
  (exists msg, snd run = Raise (ValueError msg))
  /\ trace (fst run) = trace w
  /\ (fs w !! full = None ->
      client w = true \/ opt_truthy (openai_api_key settings) = true ->
      snd run = Raise (ValueError («"이미지 파일을 찾을 수 없습니다: "» ++ full))).
Proof.
  intros full run Hbad. subst run.
  unfold process_receipt_image, prepare, get_openai_client, encode_image,
    Os.exists_, Os.read_file.
  fold full.
  destruct (client w) eqn:Hclient;
    [ | destruct (opt_truthy (openai_api_key settings)) eqn:Hkey];
    cbn [negb fs set_client];
    destruct Hbad as [Hnone | Hdir];
    rewrite ?Hnone, ?Hdir; cbn [negb fst snd trace set_client];
    (split; [eexists; reflexivity | split; [reflexivity | ]]);
    try (intros _ _; reflexivity);
    intros Habs; try discriminate Habs;
    intros [Hc | Hc]; discriminate.
Qed.

Lemma unreadable_image_makes_no_request_witness :
  snd (process_receipt_image (H := Sample.lib) Run.settings Run.down Run.fresh
         Run.relative_path 3 30)
  = Raise (ValueError («"이미지 파일을 찾을 수 없습니다: "»
                       ++ get_file_path Run.settings Run.relative_path))
  /\ (exists msg,
        snd (process_receipt_image (H := Sample.lib) Run.settings Run.down
               Scene.directory Run.relative_path 3 30)
        = Raise (ValueError msg))
  /\ trace (fst (process_receipt_image (H := Sample.lib) Run.settings Run.down
                   Scene.directory Run.relative_path 3 30))
     = trace Scene.directory.
Proof.
  destruct (unreadable_image_makes_no_request (H := Sample.lib) Run.settings
              Run.down Run.fresh Run.relative_path 3 30)
    as (_ & _ & Hmissing); [left; reflexivity | ].
  destruct (unreadable_image_makes_no_request (H := Sample.lib) Run.settings
              Run.down Scene.directory Run.relative_path 3 30)
    as (Hdir & Htrace & _); [right; reflexivity | ].
  split; [ | split; [exact Hdir | exact Htrace]].
  assert (Hfull :
    (if negb (Os.isabs Run.relative_path)
     then get_file_path Run.settings Run.relative_path
     else Run.relative_path)
    = get_file_path Run.settings Run.relative_path) by reflexivity.
  rewrite <- Hfull. apply Hmissing; [reflexivity | right; reflexivity].
Defined.

(** ** More of the file service *)

Section StorageFacts.
Context `{PyLib}.
Variable settings : Settings.

Lemma save_failure_status (w w' : world) (file : UploadFile) (e : exn) :
  save_uploaded_file settings w file = (w', Raise e) ->
  (exists detail, e = HTTPException 400 detail)
  \/ e = HTTPException 500 «"파일 저장에 실패했습니다."».
Proof.
  unfold save_uploaded_file.
  destruct (invalid_uploadb settings file) eqn:Hinv.
  - destruct (save_body_invalid settings w file Hinv) as (detail & ->).
    intros Heq. injection Heq as _ <-. left. exists detail. reflexivity.
  - destruct (save_body settings w file) as [w2 r] eqn:Hbody.
    destruct (save_body_valid settings w w2 file r Hinv Hbody)
      as [(path & ->) | (msg & ->)]; [discriminate | ].
    intros Heq. injection Heq as _ <-. right. reflexivity.
Qed.

End StorageFacts.

(** X13.  A successful upload can be read back: the returned path is not
    empty, and reading the file it names under the upload root, the way
    [process_receipt_image] resolves it, gives the uploaded bytes. *)
Theorem saved_file_reads_back `{PyLib} (settings : Settings) (w w1 : world)
    (file : UploadFile) (path : pystr) :
  save_uploaded_file settings w file = (w1, Ok path) ->
  Str.truthy path = true
  /\ encode_image w1 (get_file_path settings path) = Ok (body file).
Proof.
  intros Hsave.
  destruct (save_uploaded_file_stores settings _ _ _ _ Hsave)
    as (Htruthy & Hfile & _).
  split; [exact Htruthy | ].
  unfold get_file_path, encode_image, Os.read_file.
  rewrite Htruthy. cbn [negb]. rewrite Hfile. reflexivity.
Qed.

Lemma saved_file_reads_back_witness :
  Str.truthy Run.relative_path = true
  /\ encode_image Run.saved (get_file_path Run.settings Run.relative_path)
     = Ok (body Run.photo).
Proof.
  apply (saved_file_reads_back (H := Sample.lib) Run.settings Run.fresh
           Run.saved Run.photo Run.relative_path).
  reflexivity.
Defined.



(** X15.  Deleting twice is harmless: whatever the first [delete_file]
    did, a second one on the same path returns [False] and changes
    nothing. *)
Theorem second_delete_returns_false (settings : Settings) (w : world)
    (file_path : pystr) :
  let once := delete_file settings w file_path in
  delete_file settings (fst once) file_path = (fst once, Ok false).
Proof.
  intros once. subst once.
  unfold delete_file, delete_body, Os.exists_. rewrite !remove_spec.
  set (full := Os.path_join (upload_dir settings) file_path).
  destruct (fs w !! full) as [[content | ] | ] eqn:Hfull; cbn [negb].
  - destruct (decide (full ∈ undeletable w)) as [Hin | Hout]; cbn [fst].
    + rewrite Hfull. cbn [negb]. rewrite decide_True by exact Hin. reflexivity.
    + cbn [fs set_fs]. rewrite lookup_delete_eq. reflexivity.
  - cbn [fst]. rewrite Hfull. reflexivity.
  - cbn [fst]. rewrite Hfull. reflexivity.
Qed.

(** X16.  Deleting a stored upload removes that file and no other: when
    the file can be unlinked, [delete_file] returns [True], the path is
    free afterwards, and every other path holds what it held. *)
Theorem delete_removes_only_the_upload `{PyLib} (settings : Settings)
    (w w1 : world) (file : UploadFile) (path : pystr) :
  save_uploaded_file settings w file = (w1, Ok path) ->
  let full := Os.path_join (upload_dir settings) path in
  full ∉ undeletable w1 ->
  let out := delete_file settings w1 path in
  snd out = Ok true
  /\ fs (fst out) !! full = None
  /\ forall other, other <> full -> fs (fst out) !! other = fs w1 !! other.
Proof.
  intros Hsave full Hfree out. subst out.
  destruct (save_uploaded_file_stores settings _ _ _ _ Hsave) as (_ & Hfile & _).
  fold full in Hfile.
  rewrite (delete_file_existing settings w1 path _ Hfile). fold full.
  rewrite decide_False by exact Hfree. cbn [fst snd set_fs fs].
  split; [reflexivity | ].
  split; [apply lookup_delete_eq | ].
  intros other Hother. apply lookup_delete_ne. congruence.
Qed.

Lemma delete_removes_only_the_upload_witness :
  snd (delete_file Run.settings Run.saved Run.relative_path) = Ok true
  /\ fs (fst (delete_file Run.settings Run.saved Run.relative_path))
       !! Os.path_join (upload_dir Run.settings) Run.relative_path = None
  /\ forall other,
       other <> Os.path_join (upload_dir Run.settings) Run.relative_path ->
       fs (fst (delete_file Run.settings Run.saved Run.relative_path)) !! other
       = fs Run.saved !! other.
Proof.
  apply (delete_removes_only_the_upload (H := Sample.lib) Run.settings
           Run.fresh Run.saved Run.photo Run.relative_path).
  - reflexivity.
  - change (Os.path_join (upload_dir Run.settings) Run.relative_path
            ∉ (∅ : gset pystr)).
    apply not_elem_of_empty.
Defined.

(** X17.  No raw error leaves [save_uploaded_file]: when it fails it
    raises an [HTTPException], with status 400, or with status 500 and the
    fixed storage message. *)
Theorem failed_save_raises_http `{PyLib} (settings : Settings) (w : world)
    (file : UploadFile) (e : exn) :
  snd (save_uploaded_file settings w file) = Raise e ->
  (exists detail, e = HTTPException 400 detail)
  \/ e = HTTPException 500 «"파일 저장에 실패했습니다."».
Proof.
  destruct (save_uploaded_file settings w file) as [w' r] eqn:Hsave.
  cbn [snd]. intros ->.
  exact (save_failure_status settings _ _ _ _ Hsave).
Qed.

Lemma failed_save_raises_http_witness :
  snd (save_uploaded_file (H := Sample.lib) Run.settings Scene.read_only
         Run.photo)
  = Raise (HTTPException 500 «"파일 저장에 실패했습니다."»)
  /\ ((exists detail,
         HTTPException 500 «"파일 저장에 실패했습니다."»
         = HTTPException 400 detail)
      \/ HTTPException 500 «"파일 저장에 실패했습니다."»
         = HTTPException 500 «"파일 저장에 실패했습니다."»).
Proof.
  split; [reflexivity | ].
  apply (failed_save_raises_http (H := Sample.lib) Run.settings
           Scene.read_only Run.photo).
  reflexivity.
Defined.

(** ** More of the upload endpoint *)

Section EndpointFacts.
Context `{PyLib}.
Variable settings : Settings.
Variable vision : Z -> api_outcome.

Lemma save_raises_http (w w' : world) (file : UploadFile) (e : exn) :
  save_uploaded_file settings w file = (w', Raise e) ->
  is_HTTPException e = true.
Proof.
  intros Hsave.
  destruct (save_failure_status settings _ _ _ _ Hsave) as [(d & ->) | ->];
    reflexivity.
Qed.

End EndpointFacts.

(** X18.  When the upload is stored, the extraction succeeds and the
    response model accepts the result, the endpoint answers with that
    result and the storage-relative path, and the stored file is still
    there with the uploaded bytes. *)
Theorem upload_success_returns_result_and_path `{PyLib} (settings : Settings)
    (vision : Z -> api_outcome) (w w1 w2 : world) (file : UploadFile)
    (path : pystr) (r : ocr_result) :
  save_uploaded_file settings w file = (w1, Ok path) ->
  process_receipt_image settings vision w1 path 3 30 = (w2, Ok r) ->
  response_model r path = None ->
  process_receipt_ocr settings vision w file
  = (w2, Ok {| ocr := r; receiptImagePath := path |})
  /\ encode_image w2 (get_file_path settings path) = Ok (body file).
Proof.
  intros Hsave Hrun Hmodel. unfold process_receipt_ocr.
  rewrite Hsave, Hrun, Hmodel. split; [reflexivity | ].
  destruct (save_uploaded_file_stores settings _ _ _ _ Hsave)
    as (Htruthy & Hfile & _).
  destruct (process_receipt_image_files settings vision _ _ _ _ _ _ Hrun)
    as (Hfs & _).
  unfold get_file_path, encode_image, Os.read_file.
  rewrite Htruthy. cbn [negb]. rewrite Hfs, Hfile. reflexivity.
Qed.

Lemma upload_success_returns_result_and_path_witness :
  exists r,
    process_receipt_ocr (H := Sample.lib) Run.settings Scene.prompt_reply
      Run.fresh Run.photo
    = (extend (set_client Run.saved true) [EvCall 1],
       Ok {| ocr := r; receiptImagePath := Run.relative_path |})
    /\ encode_image (extend (set_client Run.saved true) [EvCall 1])
         (get_file_path Run.settings Run.relative_path)
       = Ok (body Run.photo).
Proof.
  destruct (parse_ocr_response (H := Sample.lib) Sample.text_sloppy)
    as [r | ex] eqn:Hparse; [ | discriminate].
  vm_compute in Hparse. injection Hparse as <-.
  eexists.
  apply (upload_success_returns_result_and_path (H := Sample.lib) Run.settings
           Scene.prompt_reply Run.fresh Run.saved
           (extend (set_client Run.saved true) [EvCall 1]) Run.photo
           Run.relative_path);
    reflexivity.
Defined.

(** X19.  Whatever makes the extraction fail once the upload is stored,
    the endpoint answers 400 and the detail is the text of the exception
    that [process_receipt_image] raised. *)
Theorem extraction_failure_is_a_400 `{PyLib} (settings : Settings)
    (vision : Z -> api_outcome) (w w1 w2 : world) (file : UploadFile)
    (path : pystr) (e : exn) :
  save_uploaded_file settings w file = (w1, Ok path) ->
  process_receipt_image settings vision w1 path 3 30 = (w2, Raise e) ->
  snd (process_receipt_ocr settings vision w file)
  = Raise (HTTPException 400 (exn_str e)).
Proof.
  intros Hsave Hrun.
  assert (Hfail : later_stage_fails settings vision w1 path e).
  { left. rewrite Hrun. reflexivity. }
  destruct (process_receipt_ocr_failure settings vision _ _ _ _ _ Hsave Hfail)
    as (w3 & _ & _ & ->).
  cbn [snd]. unfold surfaced.
  rewrite (process_receipt_image_raises settings vision 3 30 _ _ _ _ Hrun).
  reflexivity.
Qed.

Lemma extraction_failure_is_a_400_witness :
  snd (process_receipt_ocr (H := Sample.lib) Run.settings Run.rejected
         Run.fresh Run.photo)
  = Raise (HTTPException 400
             (exn_str (ValueError («"OpenAI API 호출 실패: "»
                                   ++ «"Error code: 401"»)))).
Proof.
  apply (extraction_failure_is_a_400 (H := Sample.lib) Run.settings
           Run.rejected Run.fresh Run.saved
           (extend (set_client Run.saved true) [EvCall 1]) Run.photo
           Run.relative_path).
  - reflexivity.
  - reflexivity.
Defined.

(** X20.  An upload that intake rejects is answered with the same 400,
    and the endpoint has touched nothing: no file is written and no request
    is sent to the vision endpoint. *)
Theorem rejected_upload_touches_nothing `{PyLib} (settings : Settings)
    (vision : Z -> api_outcome) (w : world) (file : UploadFile) :
  invalid_upload settings file ->
  exists detail,
    save_uploaded_file settings w file = (w, Raise (HTTPException 400 detail))
    /\ process_receipt_ocr settings vision w file
       = (w, Raise (HTTPException 400 detail)).
Proof.
  intros Hinv. apply invalid_upload_reflect in Hinv.
  destruct (save_body_invalid settings w file Hinv) as (detail & Hbody).
  exists detail.
  assert (Hsave : save_uploaded_file settings w file
                  = (w, Raise (HTTPException 400 detail))).
  { unfold save_uploaded_file. rewrite Hbody. reflexivity. }
  split; [exact Hsave | ].
  unfold process_receipt_ocr. rewrite Hsave. reflexivity.
Qed.

Lemma rejected_upload_touches_nothing_witness :
  exists detail,
    save_uploaded_file (H := Sample.lib) Run.settings Run.fresh Run.document
    = (Run.fresh, Raise (HTTPException 400 detail))
    /\ process_receipt_ocr (H := Sample.lib) Run.settings Run.down Run.fresh
         Run.document
       = (Run.fresh, Raise (HTTPException 400 detail)).
Proof.
  apply (rejected_upload_touches_nothing (H := Sample.lib) Run.settings
           Run.down Run.fresh Run.document).
  right. left. exists «"notes.txt"». split; [reflexivity | ].
  apply (bool_decide_eq_false_1 _). reflexivity.
Defined.

(** X21.  The upload endpoint lets no raw exception through: whatever it
    raises is an [HTTPException]. *)
Theorem upload_raises_only_http `{PyLib} (settings : Settings)
    (vision : Z -> api_outcome) (w : world) (file : UploadFile) (e : exn) :
  snd (process_receipt_ocr settings vision w file) = Raise e ->
  is_HTTPException e = true.
Proof.
  unfold process_receipt_ocr.
  destruct (save_uploaded_file settings w file) as [w1 [path | e0]] eqn:Hsave.
  - destruct (process_receipt_image settings vision w1 path 3 30)
      as [w2 [r | e1]].
    + destruct (response_model r path) as [e2 | ].
      * rewrite on_error_spec. intros Heq. injection Heq as <-.
        apply surfaced_is_http.
      * discriminate.
    + rewrite on_error_spec. intros Heq. injection Heq as <-.
      apply surfaced_is_http.
  - rewrite on_error_spec. intros Heq. injection Heq as <-.
    apply surfaced_is_http.
Qed.

Lemma upload_raises_only_http_witness :
  snd (process_receipt_ocr (H := Sample.lib) Run.settings Run.down Run.fresh
         Run.photo)
  = Raise (HTTPException 400
             «"OCR 처리에 실패했습니다: API 연결 오류: Connection error."»)
  /\ is_HTTPException
       (HTTPException 400
          «"OCR 처리에 실패했습니다: API 연결 오류: Connection error."») = true.
Proof.
  split; [reflexivity | ].
  apply (upload_raises_only_http (H := Sample.lib) Run.settings Run.down
           Run.fresh Run.photo).
  reflexivity.
Defined.

(** ** More of the save endpoint *)

Lemma find_category_present (st : store) (name : pystr) :
  (exists c, c ∈ categories st /\ cat_name c = name) ->
  exists c, Mongo.find_category st name = Some c.
Proof.
  unfold Mongo.find_category. intros (c & Hin & Hname).
  induction (categories st) as [ | c0 rest IH]; [inversion Hin | ].
  cbn [List.find]. destruct (bool_decide (cat_name c0 = name)) eqn:Hc0.
  - exists c0. reflexivity.
  - apply IH. apply elem_of_cons in Hin as [-> | Hin]; [ | exact Hin].
    apply bool_decide_eq_false in Hc0. contradiction.
Qed.

(** An [_id] not given out yet finds the document inserted under it. *)
Lemma find_inserted (old : list transaction_doc) (doc : transaction_doc)
    (id : Z) :
  t_id doc = id ->
  Forall (fun t => t_id t < id) old ->
  List.find (fun t => t_id t =? id) (old ++ [doc]) = Some doc.
Proof.
  intros Hid. induction 1 as [ | t old Ht _ IH]; cbn [app List.find].
  - rewrite Hid, Z.eqb_refl. reflexivity.
  - replace (t_id t =? id) with false by (symmetry; apply Z.eqb_neq; lia).
    exact IH.
Qed.

(** X22.  A save request with an existing category, a date one of the two
    parsers accepts and one of the two types is committed: exactly one
    document is appended, carrying the request's total as amount, its
    category, the memo with the merchant name merged in, and the server's
    clock as both timestamps; that document is returned, and the next
    [_id] moves on. *)
Theorem confirmed_receipt_is_appended `{PyLib} (now : datetime) (st : store)
    (request : ReceiptSaveRequest) (date : datetime) :
  ids_issued st ->
  (exists c, c ∈ categories st /\ cat_name c = req_category request) ->
  parse_date (req_date request) = Some date ->
  req_type request = «"expense"» \/ req_type request = «"income"» ->
  let doc :=
    {| t_id := next_id st;
       t_type := req_type request;
       t_date := date;
       t_amount := req_total request;
       t_category := req_category request;
       t_memo := memo_with_store (req_memo request) (req_store request);
       t_receiptImagePath := req_receiptImagePath request;
       t_createdAt := now;
       t_updatedAt := now |} in
  let st' :=
    {| categories := categories st;
       transactions := transactions st ++ [doc];
       next_id := next_id st + 1 |} in
  save_receipt_transaction now (Some st) request = (Some st', Ok doc)
  /\ ids_issued st'.
Proof.
  intros Hids Hcat Hdate Htype doc st'.
  destruct (find_category_present st _ Hcat) as (c & Hfind).
  assert (Hknown : bool_decide (req_type request ∈ [«"expense"»; «"income"»])
                   = true).
  { apply bool_decide_eq_true. destruct Htype as [-> | ->].
    - apply list_elem_of_here.
    - apply list_elem_of_further, list_elem_of_here. }
  split.
  - unfold save_receipt_transaction, save_transaction_body.
    rewrite Hfind, Hdate, Hknown. cbn [negb]. unfold Mongo.insert_one.
    cbv zeta beta. unfold Mongo.find_transaction. cbn [transactions].
    erewrite find_inserted; [reflexivity | reflexivity | exact Hids].
  - unfold ids_issued, st'. cbn [transactions next_id].
    apply Forall_app. split.
    + eapply Forall_impl; [exact Hids | ]. intros t Ht. simpl in Ht. lia.
    + constructor; [cbn [t_id doc]; lia | constructor].
Qed.

Lemma confirmed_receipt_is_appended_witness :
  exists doc st',
    save_receipt_transaction (H := Sample.lib) Run.now (Some Run.ledger)
      (Run.save_request «"식비"») = (Some st', Ok doc)
    /\ transactions st' = [doc]
    /\ t_memo doc = «"상호: Cafe A"»
    /\ t_amount doc = Sample.four_and_a_half.
Proof.
  destruct (confirmed_receipt_is_appended (H := Sample.lib) Run.now Run.ledger
              (Run.save_request «"식비"») Sample.march_15)
    as (Hsave & _).
  - constructor.
  - exists {| cat_name := «"식비"»; cat_type := «"expense"» |}.
    split; [apply list_elem_of_here | reflexivity].
  - reflexivity.
  - left. reflexivity.
  - eexists. eexists. split; [exact Hsave | ].
    repeat split.
Defined.

(** X23.  With an existing category, a date neither parser accepts is
    rejected with the 400 of the date format, and an unknown type with the
    400 of the type; in both cases the store is what it was. *)
Theorem bad_date_or_type_is_rejected `{PyLib} (now : datetime) (st : store)
    (request : ReceiptSaveRequest) :
  (exists c, c ∈ categories st /\ cat_name c = req_category request) ->
  (parse_date (req_date request) = None ->
   save_receipt_transaction now (Some st) request
   = (Some st,
      Raise (HTTPException 400
               «"날짜 형식이 올바르지 않습니다. YYYY-MM-DD 형식을 사용해주세요."»)))
  /\ (forall date,
        parse_date (req_date request) = Some date ->
        req_type request <> «"expense"» ->
        req_type request <> «"income"» ->
        save_receipt_transaction now (Some st) request
        = (Some st,
           Raise (HTTPException 400
                    «"type은 'expense' 또는 'income'이어야 합니다."»))).
Proof.
  intros Hcat. destruct (find_category_present st _ Hcat) as (c & Hfind).
  split.
  - intros Hdate. unfold save_receipt_transaction, save_transaction_body.
    rewrite Hfind, Hdate. reflexivity.
  - intros date Hdate Hexp Hinc.
    unfold save_receipt_transaction, save_transaction_body.
    rewrite Hfind, Hdate.
    assert (Hunknown :
      bool_decide (req_type request ∈ [«"expense"»; «"income"»]) = false).
    { apply bool_decide_eq_false. intros Hin.
      apply elem_of_cons in Hin as [Heq | Hin]; [contradiction | ].
      apply list_elem_of_singleton in Hin. contradiction. }
    rewrite Hunknown. reflexivity.
Qed.

Lemma bad_date_or_type_is_rejected_witness :
  save_receipt_transaction (H := Sample.lib) Run.now (Some Run.ledger)
    Scene.bad_date
  = (Some Run.ledger,
     Raise (HTTPException 400
              «"날짜 형식이 올바르지 않습니다. YYYY-MM-DD 형식을 사용해주세요."»))
  /\ save_receipt_transaction (H := Sample.lib) Run.now (Some Run.ledger)
       Scene.bad_type
     = (Some Run.ledger,
        Raise (HTTPException 400
                 «"type은 'expense' 또는 'income'이어야 합니다."»)).
Proof.
  assert (Hcat : exists c, c ∈ categories Run.ledger /\ cat_name c = «"식비"»).
  { exists {| cat_name := «"식비"»; cat_type := «"expense"» |}.
    split; [apply list_elem_of_here | reflexivity]. }
  split.
  - destruct (bad_date_or_type_is_rejected (H := Sample.lib) Run.now Run.ledger
                Scene.bad_date Hcat) as (Hdate & _).
    apply Hdate. reflexivity.
  - destruct (bad_date_or_type_is_rejected (H := Sample.lib) Run.now Run.ledger
                Scene.bad_type Hcat) as (_ & Htype).
    apply (Htype Sample.march_15); [reflexivity | | ];
      intros Heq; vm_compute in Heq; discriminate.
Defined.

(** X24.  The save endpoint lets no raw exception through: whatever it
    raises is an [HTTPException].  The [RuntimeError] of a database that was
    never connected becomes the generic 500, and the database stays
    unconnected.  A call answered with a 400 leaves the database as it
    was. *)
Theorem save_raises_only_http `{PyLib} (now : datetime)
    (db : option store) (request : ReceiptSaveRequest) (e : exn) :
  let out := save_receipt_transaction now db request in
  snd out = Raise e ->
  is_HTTPException e = true
  /\ (db = None ->
      e = HTTPException 500 «"거래 내역 저장에 실패했습니다."» /\ fst out = None)
  /\ (forall detail, e = HTTPException 400 detail -> fst out = db).
Proof.
  intros out. subst out.
  unfold save_receipt_transaction, save_transaction_body.
  destruct db as [st | ].
  2: { cbn [fst snd]. intros Heq. injection Heq as <-.
       split; [reflexivity | split; [intros _; split; reflexivity | ]].
       intros detail Habs. discriminate. }
  destruct (Mongo.find_category st (req_category request)).
  2: { cbn [fst snd]. intros Heq. injection Heq as <-.
       split; [reflexivity | split; [discriminate | reflexivity]]. }
  destruct (parse_date (req_date request)) as [date | ].
  2: { cbn [fst snd]. intros Heq. injection Heq as <-.
       split; [reflexivity | split; [discriminate | reflexivity]]. }
  destruct (negb (bool_decide (req_type request ∈ [«"expense"»; «"income"»]))).
  { cbn [fst snd]. intros Heq. injection Heq as <-.
    split; [reflexivity | split; [discriminate | reflexivity]]. }
  unfold Mongo.insert_one. cbv zeta beta.
  destruct (Mongo.find_transaction _ _) as [created | ].
  - discriminate.
  - cbn [fst snd]. intros Heq. injection Heq as <-.
    split; [reflexivity | split; [discriminate | ]].
    intros detail Habs. discriminate.
Qed.

Lemma save_raises_only_http_witness :
  snd (save_receipt_transaction (H := Sample.lib) Run.now None
         (Run.save_request «"식비"»))
  = Raise (HTTPException 500 «"거래 내역 저장에 실패했습니다."»)
  /\ fst (save_receipt_transaction (H := Sample.lib) Run.now None
            (Run.save_request «"식비"»)) = None.
Proof.
  destruct (save_raises_only_http (H := Sample.lib) Run.now None
              (Run.save_request «"식비"»)
              (HTTPException 500 «"거래 내역 저장에 실패했습니다."»))
    as (_ & Hnone & _); [reflexivity | ].
  split; [reflexivity | exact (proj2 (Hnone eq_refl))].
Defined.
